(** * Kalman-filter pairs trading: estimator, position simulator, evaluator

    A shallow embedding of [src/kalman_filter.py], [src/backtest.py] and
    [src/evaluator.py].  The Python code computes on IEEE-754 binary64 values
    (Python [float], NumPy [float64]); the embedding is written once over an
    interface [Num] of the arithmetic the code uses and is instantiated twice:

    - at [PrimFloat.float], Rocq's binary64 numbers, which evaluates the code
      as it runs (including division by zero, infinities and NaN);
    - at the real numbers [R], the arithmetic without rounding: an
      idealisation of the code, in which the algebra of the filter
      (positive semi-definiteness) can be stated.  What is said of the
      running code is said at binary64, or for every instance. *)

From Stdlib Require Import ZArith List Bool Lia.
From Stdlib Require Import Floats Uint63.
From Stdlib Require Import Reals Lra Psatz.
From Stdlib Require Import Sorting Permutation.
Import ListNotations.

#[local] Close Scope R_scope.
#[local] Open Scope Z_scope.

Set Implicit Arguments.
Set Warnings "-inexact-float".

(* ================================================================== *)
(** ** Python exceptions *)

Inductive PyExc : Type :=
| ZeroDivisionError
| IndexError
| KeyError.

Inductive result (A : Type) : Type :=
| Ok (a : A)
| Raise (e : PyExc).

Arguments Ok {A} a.
Arguments Raise {A} e.

Definition bind {A B : Type} (m : result A) (k : A -> result B) : result B :=
  match m with
  | Ok a => k a
  | Raise e => Raise e
  end.

Notation "x <- m ;; k" := (bind m (fun x => k))
  (at level 61, m at next level, right associativity).

(* ================================================================== *)
(** ** The arithmetic interface *)

Class Num (T : Type) : Type := {
  nzero : T;
  none : T;
  nadd : T -> T -> T;
  nsub : T -> T -> T;
  nmul : T -> T -> T;
  (** NumPy division: never raises, a zero divisor gives what the
      arithmetic gives (inf or NaN in binary64). *)
  ndiv : T -> T -> T;
  nopp : T -> T;
  nabs : T -> T;
  nltb : T -> T -> bool;
  nleb : T -> T -> bool;
  neqb : T -> T -> bool;
  nisnan : T -> bool;
  nofZ : Z -> T
}.

Definition float_of_Z (z : Z) : float :=
  match z with
  | Z0 => 0%float
  | Zpos _ => PrimFloat.of_uint63 (Uint63.of_Z z)
  | Zneg p => PrimFloat.opp (PrimFloat.of_uint63 (Uint63.of_Z (Zpos p)))
  end.

#[export] Instance Num_float : Num float := {|
  nzero := 0%float;
  none := 1%float;
  nadd := PrimFloat.add;
  nsub := PrimFloat.sub;
  nmul := PrimFloat.mul;
  ndiv := PrimFloat.div;
  nopp := PrimFloat.opp;
  nabs := PrimFloat.abs;
  nltb := PrimFloat.ltb;
  nleb := PrimFloat.leb;
  neqb := PrimFloat.eqb;
  nisnan := PrimFloat.is_nan;
  nofZ := float_of_Z
|}.

Definition Rltb (a b : R) : bool := if Rlt_dec a b then true else false.
Definition Rleb (a b : R) : bool := if Rle_dec a b then true else false.
Definition Reqb (a b : R) : bool := if Req_dec_T a b then true else false.

#[export] Instance Num_R : Num R := {|
  nzero := 0%R;
  none := 1%R;
  nadd := Rplus;
  nsub := Rminus;
  nmul := Rmult;
  ndiv := Rdiv;
  nopp := Ropp;
  nabs := Rabs;
  nltb := Rltb;
  nleb := Rleb;
  neqb := Reqb;
  nisnan := fun _ => false;
  nofZ := IZR
|}.

(** Python [float] division [a / b]: raises on a zero divisor. *)
Definition py_truediv {T} `{Num T} (a b : T) : result T :=
  if neqb b nzero then Raise ZeroDivisionError else Ok (ndiv a b).

(* ================================================================== *)
(** ** The NumPy operations of the filter, at the shapes the code uses *)

Section NumPy.
Context {T : Type} `{Num T}.

(** A 1-D array of length 2 and a 2x2 array (its two rows). *)
Definition vec : Type := T * T.
Definition mat : Type := vec * vec.

Definition np_zeros2 : vec := (nzero, nzero).
Definition np_eye2 : mat := ((none, nzero), (nzero, none)).

(** [np.dot] of two 1-D arrays. *)
Definition np_dot_vv (a b : vec) : T :=
  nadd (nmul (fst a) (fst b)) (nmul (snd a) (snd b)).

(** [np.dot(M, v)]: each row of [M] against [v]. *)
Definition np_dot_mv (M : mat) (v : vec) : vec :=
  (np_dot_vv (fst M) v, np_dot_vv (snd M) v).

(** [np.dot(v, M)]: [v] against each column of [M]. *)
Definition np_dot_vm (v : vec) (M : mat) : vec :=
  (nadd (nmul (fst v) (fst (fst M))) (nmul (snd v) (fst (snd M))),
   nadd (nmul (fst v) (snd (fst M))) (nmul (snd v) (snd (snd M)))).

Definition np_outer (a b : vec) : mat :=
  ((nmul (fst a) (fst b), nmul (fst a) (snd b)),
   (nmul (snd a) (fst b), nmul (snd a) (snd b))).

Definition vec_add (a b : vec) : vec :=
  (nadd (fst a) (fst b), nadd (snd a) (snd b)).

(** [v * s] and [v / s] with a scalar [s]. *)
Definition vec_mul_s (v : vec) (s : T) : vec :=
  (nmul (fst v) s, nmul (snd v) s).
Definition vec_div_s (v : vec) (s : T) : vec :=
  (ndiv (fst v) s, ndiv (snd v) s).

Definition mat_add (A B : mat) : mat :=
  (vec_add (fst A) (fst B), vec_add (snd A) (snd B)).
Definition mat_sub (A B : mat) : mat :=
  ((nsub (fst (fst A)) (fst (fst B)), nsub (snd (fst A)) (snd (fst B))),
   (nsub (fst (snd A)) (fst (snd B)), nsub (snd (snd A)) (snd (snd B)))).

(** [M + s]: the scalar is broadcast to every entry. *)
Definition mat_add_s (M : mat) (s : T) : mat :=
  ((nadd (fst (fst M)) s, nadd (snd (fst M)) s),
   (nadd (fst (snd M)) s, nadd (snd (snd M)) s)).

(** [s * M]. *)
Definition s_mul_mat (s : T) (M : mat) : mat :=
  ((nmul s (fst (fst M)), nmul s (snd (fst M))),
   (nmul s (fst (snd M)), nmul s (snd (snd M)))).
End NumPy.

Arguments vec T : clear implicits.
Arguments mat T : clear implicits.

(* ================================================================== *)
(** ** [class KalmanFilter] (the continuous variant) *)

Module KalmanFilter.
Record t (T : Type) : Type := mk {
  delta : T;
  R : T;
  beta : vec T;
  P : mat T;
  Vw : mat T;
  Ve : T
}.
Arguments mk {T}.

Section Methods.
Context {T : Type} `{Num T}.

(** [reset(self)]; the quotient [delta / (1 - delta)] is a division of
    Python floats. *)
Definition reset (self : t T) : result (t T) :=
  q <- py_truediv (delta self) (nsub none (delta self)) ;;
  Ok (mk (delta self) (R self)
         np_zeros2
         np_eye2
         (s_mul_mat q np_eye2)
         (R self)).

(** [__init__(self, delta, R)]: the attributes exist only after
    [reset]; the placeholders given here are overwritten by it. *)
Definition init (delta R : T) : result (t T) :=
  reset (mk delta R np_zeros2 np_eye2 np_eye2 R).

(** [update(self, y, x)] returns [(y_hat, e)] and the mutated object. *)
Definition update (self : t T) (y x : T) : (T * T) * t T :=
  let x_vec := (none, x) in
  let y_hat := np_dot_vv (beta self) x_vec in
  let e := nsub y y_hat in
  let P_x := np_dot_mv (P self) x_vec in
  let K := vec_div_s P_x (nadd (np_dot_vv x_vec P_x) (Ve self)) in
  let beta' := vec_add (beta self) (vec_mul_s K e) in
  let P' := mat_add_s
              (mat_sub (P self) (np_outer K (np_dot_vm x_vec (P self))))
              (R self) in
  ((y_hat, e), mk (delta self) (R self) beta' P' (Vw self) (Ve self)).

(** Feeding a sequence of observations [(y, x)], collecting the returned
    pairs. *)
Fixpoint run (self : t T) (obs : list (T * T)) : list (T * T) * t T :=
  match obs with
  | [] => ([], self)
  | (y, x) :: rest =>
      let '(out, self1) := update self y x in
      let '(outs, self2) := run self1 rest in
      (out :: outs, self2)
  end.
End Methods.
End KalmanFilter.

(* ================================================================== *)
(** ** [class RollingKalmanFilter] (the windowed variant) *)

Module RollingKalmanFilter.
Record t (T : Type) : Type := mk {
  window : Z;
  delta : T;
  R : T;
  beta : vec T;
  P : mat T;
  Vw : mat T;
  Ve : T;
  spread_history : list T
}.
Arguments mk {T}.

Section Methods.
Context {T : Type} `{Num T}.

Definition reset (self : t T) : result (t T) :=
  q <- py_truediv (delta self) (nsub none (delta self)) ;;
  Ok (mk (window self) (delta self) (R self)
         np_zeros2
         np_eye2
         (s_mul_mat q np_eye2)
         (R self)
         []).

Definition init (window : Z) (delta R : T) : result (t T) :=
  reset (mk window delta R np_zeros2 np_eye2 np_eye2 R []).

Definition update (self : t T) (y x : T) : result ((T * T) * t T) :=
  let x_vec := (none, x) in
  (* Predict *)
  let P1 := mat_add (P self) (Vw self) in
  let yhat := np_dot_vv (beta self) x_vec in
  let e := nsub y yhat in
  (* Update *)
  let S := nadd (np_dot_vv (np_dot_vm x_vec P1) x_vec) (Ve self) in
  let K := vec_div_s (np_dot_mv P1 x_vec) S in
  let beta' := vec_add (beta self) (vec_mul_s K e) in
  let P' := mat_sub P1 (np_outer K (np_dot_vm x_vec P1)) in
  (* Manage window *)
  let history := spread_history self ++ [e] in
  let self1 := mk (window self) (delta self) (R self)
                  beta' P' (Vw self) (Ve self) history in
  if Z.of_nat (length history) >? window self
  then (self2 <- reset self1 ;; Ok ((yhat, e), self2))
  else Ok ((yhat, e), self1).

Fixpoint run (self : t T) (obs : list (T * T))
  : result (list (T * T) * t T) :=
  match obs with
  | [] => Ok ([], self)
  | (y, x) :: rest =>
      r1 <- update self y x ;;
      r2 <- run (snd r1) rest ;;
      Ok (fst r1 :: fst r2, snd r2)
  end.
End Methods.
End RollingKalmanFilter.

(* ================================================================== *)
(** ** What [run_kalman_backtest] asks of its [kalman_class] argument

    The class is called without arguments (so with its default parameters),
    and the object is used through [update(y, x)] and [beta]. *)

Class KalmanModel (T M : Type) : Type := {
  km_new : result M;
  km_update : M -> T -> T -> result ((T * T) * M);
  km_beta : M -> vec T
}.

(** A decimal literal [m / 10^k] of the source: the quotient of two integers
    that binary64 represents exactly is rounded once, to the double the
    literal denotes. *)
Definition decimal {T} `{Num T} (m : Z) (k : nat) : T :=
  ndiv (nofZ m) (nofZ (10 ^ Z.of_nat k)).

(** [KalmanFilter()]: [delta=1e-2, R=0.001]. *)
#[export] Instance KalmanFilter_model {T} `{Num T}
  : KalmanModel T (KalmanFilter.t T) := {|
  km_new := KalmanFilter.init (decimal 1 2) (decimal 1 3);
  km_update := fun m y x => Ok (KalmanFilter.update m y x);
  km_beta := @KalmanFilter.beta T
|}.

(** [RollingKalmanFilter()]: [window=500, delta=1e-5, R=0.001]. *)
#[export] Instance RollingKalmanFilter_model {T} `{Num T}
  : KalmanModel T (RollingKalmanFilter.t T) := {|
  km_new := RollingKalmanFilter.init 500 (decimal 1 5) (decimal 1 3);
  km_update := RollingKalmanFilter.update;
  km_beta := @RollingKalmanFilter.beta T
|}.

(* ================================================================== *)
(** ** [run_kalman_backtest] *)

(** A row of the frame once [spread], [hedge_ratio] and [zscore] have been
    added; [name] is the index value (the timestamp). *)
Module Row.
Record t (T : Type) : Type := mk {
  name : Z;
  btc_3m : T;
  btc_perp : T;
  spread : T;
  hedge_ratio : T;
  zscore : T
}.
Arguments mk {T}.
End Row.

(** A dictionary appended to [trade_log]. *)
Module TradeLogEntry.
Record t (T : Type) : Type := mk {
  timestamp : Z;
  position : Z;
  zscore : T;
  spread : T;
  hedge_ratio : T;
  realized_pnl : T;
  unrealized_pnl : T;
  equity : T;
  entry_signal : bool;
  exit_signal : bool
}.
Arguments mk {T}.
End TradeLogEntry.

(** The variables that live across iterations of the trading loop. *)
Record Loop (T : Type) : Type := mkLoop {
  position : Z;
  equity : T;
  trade_log : list (TradeLogEntry.t T);
  entry_price_3m : T;
  entry_price_perp : T;
  entry_hedge_ratio : T
}.
Arguments mkLoop {T}.

(** The variables set afresh at the top of each iteration. *)
Record Flags (T : Type) : Type := mkFlags {
  entry_flag : bool;
  exit_flag : bool;
  unrealized_pnl : T;
  realized_pnl : T
}.
Arguments mkFlags {T}.

Section Backtest.
Context {T : Type} `{Num T}.

(** The floor [0.05] of Step 3. *)
Definition hedge_floor : T := decimal 5 2.

(** Step 3: [beta_1 <= 0 or abs(beta_1) < 0.05]. *)
Definition skipped (row : Row.t T) : bool :=
  nleb (Row.hedge_ratio row) nzero
  || nltb (nabs (Row.hedge_ratio row)) hedge_floor.

(** Steps 4 to 6: the [if position == 0 / elif == 1 / elif == -1] chain,
    giving the loop variables and the per-iteration ones after it. *)
Definition trade (z_entry z_exit trade_notional : T)
           (st : Loop T) (row : Row.t T) : Loop T * Flags T :=
  let beta_1 := Row.hedge_ratio row in
  let fresh := mkFlags false false nzero nzero in
  if position st =? 0 then
    if nltb (Row.zscore row) (nopp z_entry) then
      (mkLoop 1 (equity st) (trade_log st)
              (Row.btc_3m row) (Row.btc_perp row) beta_1,
       mkFlags true false nzero nzero)
    else if nltb z_entry (Row.zscore row) then
      (mkLoop (-1) (equity st) (trade_log st)
              (Row.btc_3m row) (Row.btc_perp row) beta_1,
       mkFlags true false nzero nzero)
    else (st, fresh)
  else if position st =? 1 then
    let exit_price_3m := Row.btc_3m row in
    let exit_price_perp := Row.btc_perp row in
    let long_qty := ndiv trade_notional (entry_price_3m st) in
    let short_qty :=
      ndiv (nmul trade_notional (entry_hedge_ratio st))
           (entry_price_perp st) in
    let unrealized :=
      nadd (nmul long_qty (nsub exit_price_3m (entry_price_3m st)))
           (nmul short_qty (nsub (entry_price_perp st) exit_price_perp)) in
    if nltb (Row.zscore row) z_exit then
      (mkLoop 0 (nadd (equity st) unrealized) (trade_log st)
              (entry_price_3m st) (entry_price_perp st)
              (entry_hedge_ratio st),
       mkFlags false true nzero unrealized)
    else (st, mkFlags false false unrealized nzero)
  else if position st =? -1 then
    let exit_price_3m := Row.btc_3m row in
    let exit_price_perp := Row.btc_perp row in
    let short_qty := ndiv trade_notional (entry_price_3m st) in
    let long_qty :=
      ndiv (nmul trade_notional (entry_hedge_ratio st))
           (entry_price_perp st) in
    let unrealized :=
      nadd (nmul short_qty (nsub (entry_price_3m st) exit_price_3m))
           (nmul long_qty (nsub exit_price_perp (entry_price_perp st))) in
    if nltb (nopp z_exit) (Row.zscore row) then
      (mkLoop 0 (nadd (equity st) unrealized) (trade_log st)
              (entry_price_3m st) (entry_price_perp st)
              (entry_hedge_ratio st),
       mkFlags false true nzero unrealized)
    else (st, mkFlags false false unrealized nzero)
  else (st, fresh).

(** Step 7: the dictionary appended to [trade_log]. *)
Definition log_entry (row : Row.t T) (st : Loop T) (fl : Flags T)
  : TradeLogEntry.t T :=
  TradeLogEntry.mk (Row.name row) (position st) (Row.zscore row)
                   (Row.spread row) (Row.hedge_ratio row)
                   (realized_pnl fl) (unrealized_pnl fl) (equity st)
                   (entry_flag fl) (exit_flag fl).

(** One iteration of the loop of Step 2 on the row [df.iloc[i]]. *)
Definition step (z_entry z_exit trade_notional : T)
           (st : Loop T) (row : Row.t T) : Loop T :=
  if skipped row then st (* continue *)
  else
    let '(st1, fl) := trade z_entry z_exit trade_notional st row in
    mkLoop (position st1) (equity st1)
           (trade_log st1 ++ [log_entry row st1 fl])
           (entry_price_3m st1) (entry_price_perp st1)
           (entry_hedge_ratio st1).

Definition loop_init (initial_capital : T) : Loop T :=
  mkLoop 0 initial_capital [] nzero nzero none.

(** Steps 2 to 8 on the frame left by [dropna]:
    [for i in range(1, len(df))]. *)
Definition simulate (z_entry z_exit initial_capital trade_notional : T)
           (df : list (Row.t T)) : Loop T :=
  fold_left (step z_entry z_exit trade_notional) (tl df)
            (loop_init initial_capital).

(** Step 1: the filter is fed [(btc_3m, btc_perp)] row by row; [spread]
    is the returned residual and [hedge_ratio] is [model.beta[1]] after
    the update.  (The message printed when the hedge ratio changes sign
    does not touch any variable and is left out.) *)
Fixpoint estimate {M : Type} `{KalmanModel T M} (model : M)
         (df : list (Z * (T * T))) : result (list (T * T)) :=
  match df with
  | [] => Ok []
  | (_, (y, x)) :: rest =>
      r <- km_update model y x ;;
      let e := snd (fst r) in
      let beta_1 := snd (km_beta (snd r)) in
      tl_ <- estimate (snd r) rest ;;
      Ok ((e, beta_1) :: tl_)
  end.

(** [dropna]: a row is kept when none of its values is NaN. *)
Definition has_nan (row : Row.t T) : bool :=
  nisnan (Row.btc_3m row) || nisnan (Row.btc_perp row)
  || nisnan (Row.spread row) || nisnan (Row.hedge_ratio row)
  || nisnan (Row.zscore row).

Section Pandas.
(** pandas' [Series.rolling(n).mean()] and [Series.rolling(n).std()],
    NaN where the window is not full. *)
Variables rolling_mean rolling_std : nat -> list T -> list T.

(** [(spread - spread.rolling(40).mean()) / spread.rolling(40).std()] *)
Definition zscore_column (spreads : list T) : list T :=
  map (fun smd => ndiv (nsub (fst smd) (fst (snd smd))) (snd (snd smd)))
      (combine spreads
               (combine (rolling_mean 40 spreads)
                        (rolling_std 40 spreads))).

(** The frame after Step 1, the z-score and [dropna]. *)
Definition prepared {M : Type} `{KalmanModel T M}
           (df : list (Z * (T * T))) : result (list (Row.t T)) :=
  model <- km_new ;;
  est <- estimate model df ;;
  let zs := zscore_column (map fst est) in
  let rows :=
    map (fun r =>
           let '((ts, (y, x)), ((e, b), z)) := r in
           Row.mk ts y x e b z)
        (combine df (combine est zs)) in
  Ok (filter (fun row => negb (has_nan row)) rows).

Definition run_kalman_backtest (M : Type) `{KalmanModel T M}
           (df : list (Z * (T * T)))
           (z_entry z_exit initial_capital trade_notional : T)
  : result (list (TradeLogEntry.t T)) :=
  rows <- prepared (M:=M) df ;;
  Ok (trade_log
        (simulate z_entry z_exit initial_capital trade_notional rows)).
End Pandas.
End Backtest.

(* ================================================================== *)
(** ** [evaluate]

    The evaluator runs on the frame of binary64 columns that the backtest
    returns.  The pandas reductions it calls are written out with their
    defaults: [skipna=True], and [ddof=1] for [std].

    [evaluate] below is the function on a frame that has the columns of the
    log, given by its rows; [evaluate_frame] after it puts the column
    lookups of line 7 in front, which fail on the frame without columns
    that [pd.DataFrame] builds from an empty list. *)

Module Evaluator.
#[local] Open Scope float_scope.

Record Metrics : Type := mkMetrics {
  Total_Return : float;
  Sharpe_Ratio : float;
  Max_Drawdown : float;
  Number_of_Trades : nat;
  Average_Trade_PnL : float
}.

Definition float_of_nat (n : nat) : float :=
  PrimFloat.of_uint63 (Uint63.of_Z (Z.of_nat n)).

Definition notna (s : list float) : list float :=
  filter (fun v => negb (PrimFloat.is_nan v)) s.

Definition series_sum (s : list float) : float :=
  fold_left PrimFloat.add (notna s) 0.

(** [Series.mean()]: NaN on a series without values. *)
Definition series_mean (s : list float) : float :=
  series_sum s / float_of_nat (length (notna s)).

(** [Series.std()]: NaN unless there are at least two values. *)
Definition series_std (s : list float) : float :=
  let v := notna s in
  if (length v <=? 1)%nat then nan
  else
    let avg := series_sum s / float_of_nat (length v) in
    PrimFloat.sqrt
      (fold_left (fun acc x => acc + (avg - x) * (avg - x)) v 0
       / float_of_nat (length v - 1)).

Definition fmax (a b : float) : float := if a <? b then b else a.

(** [Series.max()]: NaN on a series without values. *)
Definition series_max (s : list float) : float :=
  match notna s with
  | [] => nan
  | x :: r => fold_left fmax r x
  end.

(** A running reduction that leaves NaN entries in place and skips them:
    the shape of [cumsum] and [cummax]. *)
Fixpoint cumulate (op : float -> float -> float) (acc : option float)
         (s : list float) : list float :=
  match s with
  | [] => []
  | x :: r =>
      if PrimFloat.is_nan x then nan :: cumulate op acc r
      else
        let a := match acc with None => x | Some a0 => op a0 x end in
        a :: cumulate op (Some a) r
  end.

Definition series_cumsum : list float -> list float :=
  cumulate PrimFloat.add None.
Definition series_cummax : list float -> list float :=
  cumulate fmax None.

(** [s.iloc[0]] and [s.iloc[-1]]. *)
Definition iloc_first (s : list float) : result float :=
  match s with
  | [] => Raise IndexError
  | x :: _ => Ok x
  end.
Definition iloc_last (s : list float) : result float :=
  match s with
  | [] => Raise IndexError
  | x :: r => Ok (last r x)
  end.

Definition evaluate (trade_log : list (TradeLogEntry.t float))
           (initial_equity : float) : result Metrics :=
  let col_equity := map (@TradeLogEntry.equity float) trade_log in
  let pnl :=
    map (fun r => TradeLogEntry.realized_pnl r
                  + TradeLogEntry.unrealized_pnl r) trade_log in
  e0 <- iloc_first col_equity ;;
  let equity := map (fun c => e0 + c) (series_cumsum pnl) in
  e_last <- iloc_last col_equity ;;
  e_first <- iloc_first col_equity ;;
  let total_return := e_last - e_first in
  let sharpe_ratio :=
    if 0 <? series_std pnl
    then series_mean pnl / series_std pnl * PrimFloat.sqrt 252
    else 0 in
  let max_drawdown :=
    series_max
      (map (fun ce => fst ce - snd ce)
           (combine (series_cummax equity) equity)) in
  Ok (mkMetrics total_return sharpe_ratio max_drawdown
                (length trade_log) (series_mean pnl)).

(** A trade-log frame: either it has the ten columns of the log, and then
    it is the list of its rows (possibly none), or it has neither columns
    nor rows. *)
Inductive DataFrame : Type :=
| NoColumns
| Columns (rows : list (TradeLogEntry.t float)).

(** [pd.DataFrame(trade_log)] on a list of dictionaries (line 144 of
    [run_kalman_backtest]): the columns are the keys of the dictionaries,
    so an empty list gives a frame without columns. *)
Definition pd_DataFrame (trade_log : list (TradeLogEntry.t float))
  : DataFrame :=
  match trade_log with
  | [] => NoColumns
  | _ :: _ => Columns trade_log
  end.

(** [df.empty]: no rows or no columns. *)
Definition empty (df : DataFrame) : bool :=
  match df with
  | NoColumns => true
  | Columns [] => true
  | Columns (_ :: _) => false
  end.

(** [len(df)]. *)
Definition len (df : DataFrame) : nat :=
  match df with
  | NoColumns => O
  | Columns rows => length rows
  end.

(** [evaluate(trade_log)] on a frame: [trade_log["realized_pnl"]] on line 7
    raises [KeyError] when the frame has no such column. *)
Definition evaluate_frame (trade_log : DataFrame) (initial_equity : float)
  : result Metrics :=
  match trade_log with
  | NoColumns => Raise KeyError
  | Columns rows => evaluate rows initial_equity
  end.
End Evaluator.

(* ================================================================== *)
(** ** Definitions the statements below are phrased with *)

Section Statements.
Context {T : Type} `{Num T}.

(** The update of the continuous variant as the specification words it,
    entry by entry, for a state [(beta, P)] and one measurement noise:
    prediction, residual, gain, new beta, and the covariance adjusted by
    the gain with the measurement noise added. *)
Definition spec_update (beta : vec T) (P : mat T) (measurement_noise : T)
           (y x : T) : (T * T) * (vec T * mat T) :=
  let '(b0, b1) := beta in
  let '((p00, p01), (p10, p11)) := P in
  let y_hat := nadd (nmul b0 none) (nmul b1 x) in
  let e := nsub y y_hat in
  let Px0 := nadd (nmul p00 none) (nmul p01 x) in
  let Px1 := nadd (nmul p10 none) (nmul p11 x) in
  let xP0 := nadd (nmul none p00) (nmul x p10) in
  let xP1 := nadd (nmul none p01) (nmul x p11) in
  let den := nadd (nadd (nmul none Px0) (nmul x Px1)) measurement_noise in
  let K0 := ndiv Px0 den in
  let K1 := ndiv Px1 den in
  ((y_hat, e),
   ((nadd b0 (nmul K0 e), nadd b1 (nmul K1 e)),
    ((nadd (nsub p00 (nmul K0 xP0)) measurement_noise,
      nadd (nsub p01 (nmul K0 xP1)) measurement_noise),
     (nadd (nsub p10 (nmul K1 xP0)) measurement_noise,
      nadd (nsub p11 (nmul K1 xP1)) measurement_noise)))).

(** The gain denominators [x_vec . P . x_vec + Ve] of the two variants. *)
Definition kf_denominator (self : KalmanFilter.t T) (x : T) : T :=
  nadd (np_dot_vv (none, x) (np_dot_mv (KalmanFilter.P self) (none, x)))
       (KalmanFilter.Ve self).
Definition rkf_denominator (self : RollingKalmanFilter.t T) (x : T) : T :=
  let P1 := mat_add (RollingKalmanFilter.P self)
                    (RollingKalmanFilter.Vw self) in
  nadd (np_dot_vv (np_dot_vm (none, x) P1) (none, x))
       (RollingKalmanFilter.Ve self).

(** The transition table of the position state machine, positions coded
    as the loop codes them (0 flat, 1 long, -1 short); when flat the long
    test is tried before the short one. *)
Definition next_position (z_entry z_exit : T) (pos : Z) (z : T) : Z :=
  if pos =? 0 then
    if nltb z (nopp z_entry) then 1
    else if nltb z_entry z then -1
    else 0
  else if pos =? 1 then
    if nltb z z_exit then 0 else 1
  else if pos =? -1 then
    if nltb (nopp z_exit) z then 0 else -1
  else pos.

(** What of a [KalmanFilter] the update reads and the caller sees:
    everything but [delta] and [Vw]. *)
Definition kf_observable (self : KalmanFilter.t T)
  : vec T * mat T * T * T :=
  (KalmanFilter.beta self, KalmanFilter.P self,
   KalmanFilter.Ve self, KalmanFilter.R self).

(** A row that passes the test of Step 3. *)
Definition eligible (row : Row.t T) : bool := negb (skipped row).

(** What a log entry shows of the row it was written for. *)
Definition row_key (row : Row.t T) : Z * T * T * T :=
  (Row.name row, Row.zscore row, Row.spread row, Row.hedge_ratio row).
Definition entry_key (e : TradeLogEntry.t T) : Z * T * T * T :=
  (TradeLogEntry.timestamp e, TradeLogEntry.zscore e,
   TradeLogEntry.spread e, TradeLogEntry.hedge_ratio e).
End Statements.

(** The quadratic form [v . M . v]. *)
Definition quad_form {T} `{Num T} (M : mat T) (v : vec T) : T :=
  np_dot_vv v (np_dot_mv M v).

(** A 2x2 matrix whose two off-diagonal entries are the same value. *)
Definition symmetric_mat {T : Type} (M : mat T) : Prop :=
  snd (fst M) = fst (snd M).

(** Symmetric positive semi-definite 2x2 matrices, in exact arithmetic. *)
Definition symmetric (M : mat R) : Prop := snd (fst M) = fst (snd M).
Definition sym_psd (M : mat R) : Prop :=
  symmetric M /\ forall v : vec R, (0 <= quad_form M v)%R.

(** A binary64 value that is NaN or an infinity. *)
Definition nonfinite (f : float) : bool :=
  match Prim2SF f with
  | S754_nan | S754_infinity _ => true
  | _ => false
  end.

Definition vec_nonfinite (v : vec float) : bool :=
  nonfinite (fst v) && nonfinite (snd v).
Definition mat_nonfinite (M : mat float) : bool :=
  vec_nonfinite (fst M) && vec_nonfinite (snd M).

(* ================================================================== *)
(** ** [scripts/backtest.py]: [main] after the two CSV files are merged

    [main] reads and merges the price files (input and output that is not
    modelled: the merged frame is the argument here), runs the backtest
    with [KalmanFilter] and the default thresholds, returns early when the
    trade log is empty and evaluates it otherwise.  [None] is the early
    return. *)

Section Script.
Variables rolling_mean rolling_std : nat -> list float -> list float.

Definition main (df : list (Z * (float * float)))
  : result (option Evaluator.Metrics) :=
  trade_log <-
    run_kalman_backtest rolling_mean rolling_std (M := KalmanFilter.t float)
                        df 0.8%float 0.8%float 100000%float 100000%float ;;
  match trade_log with
  | [] => Ok None
  | _ :: _ =>
      metrics <- Evaluator.evaluate trade_log 1%float ;;
      Ok (Some metrics)
  end.
End Script.

(* ================================================================== *)
(** ** [data_loader.preprocess_data]

    A frame is the list of its rows, each with its index value (the
    timestamp, in milliseconds). *)

Section DataLoader.
Context {A : Type}.

(** [Index.duplicated()] with its default [keep='first']: an index value
    is marked from its second occurrence on. *)
Fixpoint duplicated_from (seen : list Z) (index : list Z) : list bool :=
  match index with
  | [] => []
  | k :: rest => existsb (Z.eqb k) seen :: duplicated_from (k :: seen) rest
  end.

Definition index_duplicated (index : list Z) : list bool :=
  duplicated_from [] index.

(** [df[mask]]: the rows whose mask entry is [True]. *)
Definition boolean_mask (mask : list bool) (df : list (Z * A))
  : list (Z * A) :=
  map snd (filter fst (combine mask df)).

(** [df.sort_index()], ascending.  It is applied to a frame whose index
    values are distinct, on which every sorting algorithm returns the same
    frame; it is written here as an insertion sort. *)
Fixpoint insert_row (r : Z * A) (sorted : list (Z * A)) : list (Z * A) :=
  match sorted with
  | [] => [r]
  | s :: rest =>
      if fst r <=? fst s then r :: s :: rest else s :: insert_row r rest
  end.

Definition sort_index (df : list (Z * A)) : list (Z * A) :=
  fold_right insert_row [] df.

Definition preprocess_data (df : list (Z * A)) : list (Z * A) :=
  let df1 := boolean_mask (map negb (index_duplicated (map fst df))) df in
  sort_index df1.

(** The first row of a frame with a given index value. *)
Definition first_row (k : Z) (df : list (Z * A)) : option (Z * A) :=
  find (fun r => fst r =? k) df.

(** The rows that [df[~df.index.duplicated()]] keeps, read row by row:
    a row is kept when its index value was not seen before. *)
Fixpoint keep_first_from (seen : list Z) (df : list (Z * A))
  : list (Z * A) :=
  match df with
  | [] => []
  | r :: rest =>
      if existsb (Z.eqb (fst r)) seen
      then keep_first_from (fst r :: seen) rest
      else r :: keep_first_from (fst r :: seen) rest
  end.

(** A frame whose index is strictly increasing. *)
Definition index_increasing (df : list (Z * A)) : Prop :=
  StronglySorted Z.lt (map fst df).
End DataLoader.

(* ================================================================== *)
(** ** [class MarginAccount]

    The account computes on Python numbers: division raises on a zero
    divisor.  The two entries of [positions] are the fixed keys ["perp"]
    and ["future"]; [trade_log] is set to the empty list by the constructor
    and no method reads or writes it. *)

Module MarginAccount.
#[local] Open Scope float_scope.

Record Position : Type := mkPosition {
  quantity : float;
  entry_price : float
}.

Record t : Type := mk {
  cash : float;
  perp : Position;
  future : Position;
  leverage : float;
  maintenance_margin_ratio : float;
  liquidated : bool
}.

(** [__init__(self, initial_cash, leverage, maintenance_margin_ratio)] *)
Definition init (initial_cash leverage maintenance_margin_ratio : float) : t :=
  mk initial_cash (mkPosition 0 0) (mkPosition 0 0)
     leverage maintenance_margin_ratio false.

Definition update_position (self : t)
           (market_price_perp market_price_future : float) : float :=
  let perp_pnl :=
    quantity (perp self) * (market_price_perp - entry_price (perp self)) in
  let future_pnl :=
    quantity (future self)
    * (market_price_future - entry_price (future self)) in
  perp_pnl + future_pnl.

Definition margin_required (self : t) : result float :=
  perp_margin <-
    py_truediv
      (PrimFloat.abs (quantity (perp self) * entry_price (perp self)))
      (leverage self) ;;
  future_margin <-
    py_truediv
      (PrimFloat.abs (quantity (future self) * entry_price (future self)))
      (leverage self) ;;
  Ok (perp_margin + future_margin).

Definition margin_ratio (self : t)
           (market_price_perp market_price_future : float) : result float :=
  let equity :=
    cash self + update_position self market_price_perp market_price_future in
  margin_required_ <- margin_required self ;;
  if margin_required_ =? 0 then Ok infinity
  else py_truediv equity margin_required_.

(** Returns the answer and the account after the call. *)
Definition check_liquidation (self : t)
           (market_price_perp market_price_future : float)
  : result (bool * t) :=
  ratio <- margin_ratio self market_price_perp market_price_future ;;
  if ratio <? maintenance_margin_ratio self
  then Ok (true,
           mk (cash self) (perp self) (future self) (leverage self)
              (maintenance_margin_ratio self) true)
  else Ok (false, self).
End MarginAccount.

(* ================================================================== *)
(** ** The shape of a trade log *)

Section LogShape.
Context {T : Type} `{Num T}.

(** What every dictionary appended by the trading loop satisfies. *)
Definition entry_wellformed (e : TradeLogEntry.t T) : Prop :=
  (TradeLogEntry.position e = 0 \/ TradeLogEntry.position e = 1
   \/ TradeLogEntry.position e = -1)
  /\ (TradeLogEntry.entry_signal e && TradeLogEntry.exit_signal e = false)
  /\ (TradeLogEntry.entry_signal e = true ->
      TradeLogEntry.position e <> 0
      /\ TradeLogEntry.unrealized_pnl e = nzero)
  /\ (TradeLogEntry.exit_signal e = true -> TradeLogEntry.position e = 0)
  /\ (TradeLogEntry.exit_signal e = false ->
      TradeLogEntry.realized_pnl e = nzero)
  /\ (TradeLogEntry.position e = 0 -> TradeLogEntry.unrealized_pnl e = nzero).

(** The signal of a log entry: [true] for an entry, [false] for an exit. *)
Definition signal_of (e : TradeLogEntry.t T) : option bool :=
  if TradeLogEntry.entry_signal e then Some true
  else if TradeLogEntry.exit_signal e then Some false
  else None.

Fixpoint signals (log : list (TradeLogEntry.t T)) : list bool :=
  match log with
  | [] => []
  | e :: rest =>
      match signal_of e with
      | Some s => s :: signals rest
      | None => signals rest
      end
  end.

(** Reading a list of signals that must alternate, [next] being the one
    expected first: the signal expected after the list, or [None] when two
    signals of the same kind follow each other. *)
Fixpoint alternates (next : bool) (l : list bool) : option bool :=
  match l with
  | [] => Some next
  | s :: rest => if Bool.eqb s next then alternates (negb next) rest else None
  end.

(** The equity that the log itself accounts for: the starting capital and,
    at each exit entry, the realized PnL logged there, added in log
    order. *)
Definition book (acc : T) (e : TradeLogEntry.t T) : T :=
  if TradeLogEntry.exit_signal e
  then nadd acc (TradeLogEntry.realized_pnl e)
  else acc.

Fixpoint running_equity (acc : T) (log : list (TradeLogEntry.t T))
  : list T :=
  match log with
  | [] => []
  | e :: rest => book acc e :: running_equity (book acc e) rest
  end.
End LogShape.

(* ================================================================== *)
(** ** The windowed estimator at any time after it was built

    [built w k0 self]: [self] is in a state that an estimator built as [k0]
    with window [w] can be in: a reset leads back to [k0], the
    configuration is that of [k0], and the buffer is within the window. *)

Definition built {T} `{Num T} (w : nat) (k0 self : RollingKalmanFilter.t T)
  : Prop :=
  RollingKalmanFilter.reset self = Ok k0
  /\ RollingKalmanFilter.window self = Z.of_nat w
  /\ RollingKalmanFilter.delta self = RollingKalmanFilter.delta k0
  /\ RollingKalmanFilter.R self = RollingKalmanFilter.R k0
  /\ RollingKalmanFilter.Vw self = RollingKalmanFilter.Vw k0
  /\ RollingKalmanFilter.Ve self = RollingKalmanFilter.Ve k0
  /\ (length (RollingKalmanFilter.spread_history self) <= w)%nat.

(* ================================================================== *)
(** * Properties *)

(** ** The literals of the source *)

Example literal_floor : hedge_floor (T:=float) = 0.05%float.
Proof. reflexivity. Qed.

Example literal_defaults :
  (decimal (T:=float) 1 2, decimal (T:=float) 1 5, decimal (T:=float) 1 3,
   decimal (T:=float) 8 1)
  = (1e-2, 1e-5, 0.001, 0.8)%float.
Proof. reflexivity. Qed.

(** ** The continuous variant *)

Section KalmanFilterFacts.
Context {T : Type} `{Num T}.

Lemma kf_reset_fields (self k : KalmanFilter.t T) :
  KalmanFilter.reset self = Ok k ->
  KalmanFilter.beta k = np_zeros2
  /\ KalmanFilter.P k = np_eye2
  /\ KalmanFilter.Ve k = KalmanFilter.R self
  /\ KalmanFilter.R k = KalmanFilter.R self
  /\ KalmanFilter.delta k = KalmanFilter.delta self.
Proof.
  unfold KalmanFilter.reset, bind.
  destruct (py_truediv _ _); [ | discriminate ].
  intros E; injection E as <-; cbn; auto.
Qed.

(** [Ve] and [R] are set to the same number by [reset] and left alone by
    [update]. *)
Lemma kf_update_keeps_noise (self : KalmanFilter.t T) (y x : T) :
  KalmanFilter.Ve (snd (KalmanFilter.update self y x)) = KalmanFilter.Ve self
  /\ KalmanFilter.R (snd (KalmanFilter.update self y x)) = KalmanFilter.R self.
Proof. split; reflexivity. Qed.

Lemma kf_run_keeps_noise (obs : list (T * T)) :
  forall self : KalmanFilter.t T,
    KalmanFilter.Ve (snd (KalmanFilter.run self obs)) = KalmanFilter.Ve self
    /\ KalmanFilter.R (snd (KalmanFilter.run self obs)) = KalmanFilter.R self.
Proof.
  induction obs as [ | [y x] rest IH ]; intros self; cbn [KalmanFilter.run].
  - split; reflexivity.
  - destruct (kf_update_keeps_noise self y x) as [Hve Hr].
    destruct (KalmanFilter.update self y x) as [o s1]. cbn [snd] in Hve, Hr.
    destruct (IH s1) as [IHve IHr].
    destruct (KalmanFilter.run s1 rest) as [os s2]. cbn [snd] in *.
    split; congruence.
Qed.

Lemma kf_update_observable (k1 k2 : KalmanFilter.t T) (y x : T) :
  kf_observable k1 = kf_observable k2 ->
  fst (KalmanFilter.update k1 y x) = fst (KalmanFilter.update k2 y x)
  /\ kf_observable (snd (KalmanFilter.update k1 y x))
     = kf_observable (snd (KalmanFilter.update k2 y x)).
Proof.
  destruct k1 as [d1 r1 b1 p1 vw1 ve1], k2 as [d2 r2 b2 p2 vw2 ve2].
  unfold kf_observable; cbn.
  intros E; injection E as -> -> -> ->; split; reflexivity.
Qed.

Lemma kf_run_observable (obs : list (T * T)) :
  forall k1 k2 : KalmanFilter.t T,
    kf_observable k1 = kf_observable k2 ->
    fst (KalmanFilter.run k1 obs) = fst (KalmanFilter.run k2 obs)
    /\ kf_observable (snd (KalmanFilter.run k1 obs))
       = kf_observable (snd (KalmanFilter.run k2 obs)).
Proof.
  induction obs as [ | [y x] rest IH ]; intros k1 k2 E; cbn [KalmanFilter.run].
  - split; [ reflexivity | exact E ].
  - destruct (kf_update_observable y x E) as [Eout Est].
    destruct (KalmanFilter.update k1 y x) as [o1 s1].
    destruct (KalmanFilter.update k2 y x) as [o2 s2].
    cbn [fst snd] in Eout, Est.
    destruct (IH s1 s2 Est) as [IHout IHst].
    destruct (KalmanFilter.run s1 rest) as [os1 t1].
    destruct (KalmanFilter.run s2 rest) as [os2 t2].
    cbn [fst snd] in *; split; [ congruence | exact IHst ].
Qed.
End KalmanFilterFacts.

(** C2.  Every [update(y, x)] of a continuous estimator built with
    measurement noise [r], whatever it was fed before, computes exactly the
    specification's formulas on its current [(beta, P)]:
    [y_hat = beta.[1,x]], [e = y - y_hat],
    [K = P.[1,x] / ([1,x].P.[1,x] + r)], [beta + K*e], and
    [P - outer(K, [1,x].P) + r]; the process-noise matrix [Vw] enters none
    of them and is handed on unchanged. *)
Theorem kf_update_refines_spec :
  forall (T : Type) (N : Num T) (delta r : T) (k0 : KalmanFilter.t T)
         (obs : list (T * T)) (y x : T),
    KalmanFilter.init delta r = Ok k0 ->
    let self := snd (KalmanFilter.run k0 obs) in
    let claimed :=
      spec_update (KalmanFilter.beta self) (KalmanFilter.P self) r y x in
    KalmanFilter.update self y x
    = (fst claimed,
       KalmanFilter.mk (KalmanFilter.delta self) (KalmanFilter.R self)
                       (fst (snd claimed)) (snd (snd claimed))
                       (KalmanFilter.Vw self) (KalmanFilter.Ve self)).
Proof.
  intros T N delta r k0 obs y x Hinit self.
  apply kf_reset_fields in Hinit. destruct Hinit as (_ & _ & Hve & Hr & _).
  cbn in Hve, Hr.
  destruct (kf_run_keeps_noise obs k0) as [Hve' Hr']. fold self in Hve', Hr'.
  assert (Ev : KalmanFilter.Ve self = r) by congruence.
  assert (Er : KalmanFilter.R self = r) by congruence.
  destruct self as [d r0 [b0 b1] [[p00 p01] [p10 p11]] vw ve].
  cbn in Ev, Er. subst ve r0. reflexivity.
Qed.

Lemma kf_update_refines_spec_witness :
  let k0 := KalmanFilter.mk 0.01%float 0.001%float np_zeros2 np_eye2
              (s_mul_mat (0.01 / (1 - 0.01))%float np_eye2) 0.001%float in
  let obs := [(101, 100); (102.5, 101)]%float in
  let self := snd (KalmanFilter.run k0 obs) in
  let claimed :=
    spec_update (KalmanFilter.beta self) (KalmanFilter.P self) 0.001%float
                103%float 102%float in
  KalmanFilter.init 0.01%float 0.001%float = Ok k0
  /\ KalmanFilter.update self 103%float 102%float
     = (fst claimed,
        KalmanFilter.mk (KalmanFilter.delta self) (KalmanFilter.R self)
                        (fst (snd claimed)) (snd (snd claimed))
                        (KalmanFilter.Vw self) (KalmanFilter.Ve self)).
Proof.
  split; [ reflexivity | ].
  exact (@kf_update_refines_spec float Num_float 0.01%float 0.001%float
           (KalmanFilter.mk 0.01%float 0.001%float np_zeros2 np_eye2
              (s_mul_mat (0.01 / (1 - 0.01))%float np_eye2) 0.001%float)
           [(101, 100); (102.5, 101)]%float 103%float 102%float eq_refl).
Defined.

(** C10.  Two continuous estimators built with different [delta] and the
    same [R], fed the same observations, return the same
    [(y_hat, residual)] at every call and end with the same [beta] and
    covariance. *)
Theorem kf_delta_irrelevant :
  forall (T : Type) (N : Num T) (delta1 delta2 r : T)
         (k1 k2 : KalmanFilter.t T) (obs : list (T * T)),
    KalmanFilter.init delta1 r = Ok k1 ->
    KalmanFilter.init delta2 r = Ok k2 ->
    fst (KalmanFilter.run k1 obs) = fst (KalmanFilter.run k2 obs)
    /\ KalmanFilter.beta (snd (KalmanFilter.run k1 obs))
       = KalmanFilter.beta (snd (KalmanFilter.run k2 obs))
    /\ KalmanFilter.P (snd (KalmanFilter.run k1 obs))
       = KalmanFilter.P (snd (KalmanFilter.run k2 obs)).
Proof.
  intros T N d1 d2 r k1 k2 obs E1 E2.
  apply kf_reset_fields in E1; destruct E1 as (B1 & P1 & V1 & R1 & _).
  apply kf_reset_fields in E2; destruct E2 as (B2 & P2 & V2 & R2 & _).
  cbn in V1, R1, V2, R2.
  assert (E : kf_observable k1 = kf_observable k2)
    by (unfold kf_observable; congruence).
  destruct (@kf_run_observable T N obs k1 k2 E) as [Eout Est].
  unfold kf_observable in Est.
  split; [ exact Eout | split; congruence ].
Qed.

Lemma kf_delta_irrelevant_witness :
  let k1 := KalmanFilter.mk 0.01%float 0.001%float np_zeros2 np_eye2
              (s_mul_mat (0.01 / (1 - 0.01))%float np_eye2) 0.001%float in
  let k2 := KalmanFilter.mk 0.5%float 0.001%float np_zeros2 np_eye2
              (s_mul_mat (0.5 / (1 - 0.5))%float np_eye2) 0.001%float in
  let obs := [(101, 100); (102.5, 101)]%float in
  KalmanFilter.init 0.01%float 0.001%float = Ok k1
  /\ KalmanFilter.init 0.5%float 0.001%float = Ok k2
  /\ (fst (KalmanFilter.run k1 obs) = fst (KalmanFilter.run k2 obs)
      /\ KalmanFilter.beta (snd (KalmanFilter.run k1 obs))
         = KalmanFilter.beta (snd (KalmanFilter.run k2 obs))
      /\ KalmanFilter.P (snd (KalmanFilter.run k1 obs))
         = KalmanFilter.P (snd (KalmanFilter.run k2 obs))).
Proof.
  split; [ reflexivity | split; [ reflexivity | ] ].
  apply (@kf_delta_irrelevant float Num_float 0.01%float 0.5%float
                              0.001%float);
    reflexivity.
Defined.

(** ** The windowed variant *)

Section RollingFacts.
Context {T : Type} `{Num T}.

(** [reset] reads only [window], [delta] and [R]. *)
Lemma rkf_reset_congr (a b : RollingKalmanFilter.t T) :
  RollingKalmanFilter.window a = RollingKalmanFilter.window b ->
  RollingKalmanFilter.delta a = RollingKalmanFilter.delta b ->
  RollingKalmanFilter.R a = RollingKalmanFilter.R b ->
  RollingKalmanFilter.reset a = RollingKalmanFilter.reset b.
Proof.
  unfold RollingKalmanFilter.reset; intros -> -> ->; reflexivity.
Qed.

Lemma rkf_reset_fields (self k : RollingKalmanFilter.t T) :
  RollingKalmanFilter.reset self = Ok k ->
  RollingKalmanFilter.window k = RollingKalmanFilter.window self
  /\ RollingKalmanFilter.delta k = RollingKalmanFilter.delta self
  /\ RollingKalmanFilter.R k = RollingKalmanFilter.R self
  /\ RollingKalmanFilter.beta k = np_zeros2
  /\ RollingKalmanFilter.P k = np_eye2
  /\ RollingKalmanFilter.Ve k = RollingKalmanFilter.R self
  /\ RollingKalmanFilter.spread_history k = [].
Proof.
  unfold RollingKalmanFilter.reset, bind.
  destruct (py_truediv _ _); [ | discriminate ].
  intros E; injection E as <-; cbn; repeat split.
Qed.

(** A reset object is a fixed point of [reset]. *)
Lemma rkf_reset_idem (self k : RollingKalmanFilter.t T) :
  RollingKalmanFilter.reset self = Ok k ->
  RollingKalmanFilter.reset k = Ok k.
Proof.
  intros E; rewrite <- E.
  destruct (rkf_reset_fields self E) as (W & D & R0 & _).
  apply rkf_reset_congr; assumption.
Qed.

(** An update that leaves the buffer within the window: no reset. *)
Lemma rkf_update_within (self : RollingKalmanFilter.t T) (y x : T) :
  Z.of_nat (S (length (RollingKalmanFilter.spread_history self)))
  <= RollingKalmanFilter.window self ->
  exists out k,
    RollingKalmanFilter.update self y x = Ok (out, k)
    /\ RollingKalmanFilter.window k = RollingKalmanFilter.window self
    /\ RollingKalmanFilter.delta k = RollingKalmanFilter.delta self
    /\ RollingKalmanFilter.R k = RollingKalmanFilter.R self
    /\ length (RollingKalmanFilter.spread_history k)
       = S (length (RollingKalmanFilter.spread_history self)).
Proof.
  intros Hlen. unfold RollingKalmanFilter.update.
  cbn [RollingKalmanFilter.window RollingKalmanFilter.spread_history].
  rewrite length_app, Nat.add_1_r.
  destruct (Z.gtb_spec
              (Z.of_nat (S (length (RollingKalmanFilter.spread_history self))))
              (RollingKalmanFilter.window self)) as [Hgt | _];
    [ lia | ].
  eexists; eexists; split; [ reflexivity | ].
  cbn. rewrite length_app, Nat.add_1_r. repeat split.
Qed.

(** The update that takes the buffer past the window ends in [reset]. *)
Lemma rkf_update_rollover (self k0 : RollingKalmanFilter.t T) (y x : T) :
  RollingKalmanFilter.window self
  < Z.of_nat (S (length (RollingKalmanFilter.spread_history self))) ->
  RollingKalmanFilter.reset self = Ok k0 ->
  exists out, RollingKalmanFilter.update self y x = Ok (out, k0).
Proof.
  intros Hlen Hreset. unfold RollingKalmanFilter.update.
  cbn [RollingKalmanFilter.window RollingKalmanFilter.spread_history].
  rewrite length_app, Nat.add_1_r.
  destruct (Z.gtb_spec
              (Z.of_nat (S (length (RollingKalmanFilter.spread_history self))))
              (RollingKalmanFilter.window self)) as [_ | Hle];
    [ | lia ].
  match goal with
  | |- context [RollingKalmanFilter.reset ?s] =>
      rewrite (@rkf_reset_congr s self eq_refl eq_refl eq_refl)
  end.
  rewrite Hreset; cbn. eexists; reflexivity.
Qed.

(** Filling the window and one more observation. *)
Lemma rkf_run_rollover (w : nat) (k0 : RollingKalmanFilter.t T) :
  forall (rest : list (T * T)) (o : T * T) (self : RollingKalmanFilter.t T),
    RollingKalmanFilter.window self = Z.of_nat w ->
    (length (RollingKalmanFilter.spread_history self) + length rest = w)%nat ->
    RollingKalmanFilter.reset self = Ok k0 ->
    exists outs, RollingKalmanFilter.run self (o :: rest) = Ok (outs, k0).
Proof.
  induction rest as [ | o' rest IH ]; intros [y x] self Hw Hlen Hreset.
  - cbn [length] in Hlen.
    destruct (@rkf_update_rollover self k0 y x) as [out E];
      [ lia | exact Hreset | ].
    cbn [RollingKalmanFilter.run]. rewrite E. cbn.
    eexists; reflexivity.
  - cbn [length] in Hlen.
    destruct (@rkf_update_within self y x) as (out & k & E & W & D & R0 & L);
      [ lia | ].
    destruct (IH o' k) as [outs E'].
    + congruence.
    + lia.
    + rewrite <- Hreset. apply rkf_reset_congr; assumption.
    + cbn [RollingKalmanFilter.run] in E' |- *.
      rewrite E. cbn [bind snd fst]. 
      destruct o' as [y' x'].
      rewrite E'. cbn. eexists; reflexivity.
Qed.
End RollingFacts.

(** C1 (as amended).  From a freshly built windowed estimator with window
    [w], the state after exactly [w+1] updates is the state [reset()] alone
    leaves: zero [beta], identity covariance and an empty residual buffer;
    the [(w+1)]-th observation is spent on the update that triggers the
    reset. *)
Theorem rkf_rollover_is_fresh_reset :
  forall (T : Type) (N : Num T) (w : nat) (delta r : T)
         (k0 : RollingKalmanFilter.t T) (obs : list (T * T)),
    RollingKalmanFilter.init (Z.of_nat w) delta r = Ok k0 ->
    length obs = S w ->
    (exists outs, RollingKalmanFilter.run k0 obs = Ok (outs, k0))
    /\ RollingKalmanFilter.beta k0 = np_zeros2
    /\ RollingKalmanFilter.P k0 = np_eye2
    /\ RollingKalmanFilter.spread_history k0 = [].
Proof.
  intros T N w delta r k0 obs Hinit Hlen.
  unfold RollingKalmanFilter.init in Hinit.
  destruct (rkf_reset_fields _ Hinit) as (W & D & R0 & B & P0 & V & Hh).
  cbn in W.
  split; [ | auto ].
  destruct obs as [ | o rest ]; [ discriminate | ].
  apply (@rkf_run_rollover T N w k0 rest o k0).
  - exact W.
  - rewrite Hh. cbn in Hlen |- *. lia.
  - exact (rkf_reset_idem _ Hinit).
Qed.

Lemma rkf_rollover_is_fresh_reset_witness :
  let k0 := RollingKalmanFilter.mk 1 1e-5%float 0.001%float np_zeros2
              np_eye2 (s_mul_mat (1e-5 / (1 - 1e-5))%float np_eye2)
              0.001%float [] in
  let obs := [(101, 100); (102.5, 101)]%float in
  RollingKalmanFilter.init (Z.of_nat 1) 1e-5%float 0.001%float = Ok k0
  /\ length obs = 2%nat
  /\ ((exists outs, RollingKalmanFilter.run k0 obs = Ok (outs, k0))
      /\ RollingKalmanFilter.beta k0 = np_zeros2
      /\ RollingKalmanFilter.P k0 = np_eye2
      /\ RollingKalmanFilter.spread_history k0 = []).
Proof.
  split; [ reflexivity | split; [ reflexivity | ] ].
  apply (@rkf_rollover_is_fresh_reset float Num_float 1%nat 1e-5%float
                                      0.001%float);
    reflexivity.
Defined.

(** C1 as the specification words it fails: with window 1, the state after
    two updates has an empty buffer and zero [beta], while a fresh [reset()]
    followed by one update on the second observation leaves that residual
    in the buffer and a non-zero [beta]. *)
Lemma rkf_rollover_counterexample :
  let obs := [(1, 1); (2, 1)]%float in
  exists (k0 after_two reset_then_one : RollingKalmanFilter.t float)
         (outs outs' : list (float * float)),
    RollingKalmanFilter.init 1 1e-5%float 0.001%float = Ok k0
    /\ RollingKalmanFilter.run k0 obs = Ok (outs, after_two)
    /\ (k <- RollingKalmanFilter.reset k0 ;;
        RollingKalmanFilter.run k [(2, 1)%float]) = Ok (outs', reset_then_one)
    /\ RollingKalmanFilter.spread_history after_two = []
    /\ RollingKalmanFilter.spread_history reset_then_one = [2%float]
    /\ RollingKalmanFilter.beta after_two = (0, 0)%float
    /\ PrimFloat.eqb (fst (RollingKalmanFilter.beta reset_then_one)) 0 = false
    /\ after_two <> reset_then_one.
Proof.
  cbv zeta.
  do 5 eexists.
  split; [ vm_compute; reflexivity | ].
  split; [ vm_compute; reflexivity | ].
  split; [ vm_compute; reflexivity | ].
  split; [ reflexivity | ].
  split; [ reflexivity | ].
  split; [ reflexivity | ].
  split; [ reflexivity | ].
  intros E. apply (f_equal (@RollingKalmanFilter.spread_history float)) in E.
  discriminate E.
Qed.

(** ** The position simulator *)

Section SimulatorFacts.
Context {T : Type} `{Num T}.
Variables z_entry z_exit trade_notional : T.

Lemma trade_position (st : Loop T) (row : Row.t T) :
  position (fst (trade z_entry z_exit trade_notional st row))
  = next_position z_entry z_exit (position st) (Row.zscore row).
Proof.
  unfold trade, next_position.
  destruct (position st =? 0) eqn:E0.
  - apply Z.eqb_eq in E0.
    destruct (nltb (Row.zscore row) (nopp z_entry)); [ reflexivity | ].
    destruct (nltb z_entry (Row.zscore row)); [ reflexivity | ].
    cbn; exact E0.
  - destruct (position st =? 1) eqn:E1.
    + apply Z.eqb_eq in E1.
      destruct (nltb (Row.zscore row) z_exit); [ reflexivity | ].
      cbn; exact E1.
    + destruct (position st =? -1) eqn:E2; [ | reflexivity ].
      apply Z.eqb_eq in E2.
      destruct (nltb (nopp z_exit) (Row.zscore row)); [ reflexivity | ].
      cbn; exact E2.
Qed.

Lemma trade_keeps_log (st : Loop T) (row : Row.t T) :
  trade_log (fst (trade z_entry z_exit trade_notional st row))
  = trade_log st.
Proof.
  unfold trade.
  repeat match goal with
         | |- context [if ?b then _ else _] => destruct b
         end; reflexivity.
Qed.

(** On entry the prices of both legs and the hedge ratio of the row are
    stored. *)
Lemma trade_entry_data (st : Loop T) (row : Row.t T) :
  position st = 0 ->
  position (fst (trade z_entry z_exit trade_notional st row)) <> 0 ->
  let st1 := fst (trade z_entry z_exit trade_notional st row) in
  entry_price_3m st1 = Row.btc_3m row
  /\ entry_price_perp st1 = Row.btc_perp row
  /\ entry_hedge_ratio st1 = Row.hedge_ratio row.
Proof.
  intros E0. unfold trade. rewrite E0; cbn [Z.eqb].
  destruct (nltb (Row.zscore row) (nopp z_entry)); [ cbn; auto | ].
  destruct (nltb z_entry (Row.zscore row)); [ cbn; auto | ].
  cbn. intros NE; contradiction.
Qed.

Lemma step_eligible (st : Loop T) (row : Row.t T) :
  skipped row = false ->
  let st1 := fst (trade z_entry z_exit trade_notional st row) in
  let fl := snd (trade z_entry z_exit trade_notional st row) in
  step z_entry z_exit trade_notional st row
  = mkLoop (position st1) (equity st1)
           (trade_log st ++ [log_entry row st1 fl])
           (entry_price_3m st1) (entry_price_perp st1)
           (entry_hedge_ratio st1).
Proof.
  intros E. unfold step. rewrite E.
  rewrite <- (trade_keeps_log st row).
  destruct (trade z_entry z_exit trade_notional st row); reflexivity.
Qed.

Lemma step_skipped (st : Loop T) (row : Row.t T) :
  skipped row = true ->
  step z_entry z_exit trade_notional st row = st.
Proof. intros E. unfold step. rewrite E. reflexivity. Qed.

Lemma step_position (st : Loop T) (row : Row.t T) :
  position (step z_entry z_exit trade_notional st row)
  = if skipped row then position st
    else next_position z_entry z_exit (position st) (Row.zscore row).
Proof.
  destruct (skipped row) eqn:E.
  - rewrite step_skipped by exact E. reflexivity.
  - rewrite step_eligible by exact E. cbn. apply trade_position.
Qed.

Lemma eligible_of_skipped (row : Row.t T) :
  skipped row = true -> eligible row = false.
Proof. unfold eligible; intros ->; reflexivity. Qed.

Lemma eligible_of_not_skipped (row : Row.t T) :
  skipped row = false -> eligible row = true.
Proof. unfold eligible; intros ->; reflexivity. Qed.

(** The log grows by one entry per eligible row, written for that row. *)
Lemma fold_step_log (rows : list (Row.t T)) :
  forall st : Loop T,
    map entry_key
        (trade_log (fold_left (step z_entry z_exit trade_notional) rows st))
    = map entry_key (trade_log st) ++ map row_key (filter eligible rows).
Proof.
  induction rows as [ | row rows IH ]; intros st; cbn [fold_left filter].
  - cbn. rewrite app_nil_r. reflexivity.
  - rewrite IH.
    destruct (skipped row) eqn:E.
    + rewrite (eligible_of_skipped row E), step_skipped by exact E.
      reflexivity.
    + rewrite (eligible_of_not_skipped row E), step_eligible by exact E.
      cbn [trade_log map]. rewrite map_app, <- app_assoc. reflexivity.
Qed.

(** Rows that fail the test of Step 3 can be deleted from the frame
    without changing anything the loop computes. *)
Lemma fold_step_filter (rows : list (Row.t T)) :
  forall st : Loop T,
    fold_left (step z_entry z_exit trade_notional) rows st
    = fold_left (step z_entry z_exit trade_notional)
                (filter eligible rows) st.
Proof.
  induction rows as [ | row rows IH ]; intros st; cbn [fold_left filter].
  - reflexivity.
  - destruct (skipped row) eqn:E.
    + rewrite (eligible_of_skipped row E), step_skipped by exact E.
      apply IH.
    + rewrite (eligible_of_not_skipped row E). cbn [fold_left]. apply IH.
Qed.
End SimulatorFacts.

(** C3 (as amended).  On an eligible row the position moves as follows.
    Flat: to Long iff [zscore < -z_entry]; to Short iff that test fails and
    [zscore > z_entry] (the long test is tried first); it stays Flat iff
    both fail; on either entry both entry prices and the entry hedge ratio
    are recorded from the row.  Long: to Flat iff [zscore < z_exit], else
    stays Long.  Short: to Flat iff [zscore > -z_exit], else stays Short.
    Hence no step goes from Long to Short or from Short to Long. *)
Theorem position_transitions :
  forall (T : Type) (N : Num T) (z_entry z_exit trade_notional : T)
         (st : Loop T) (row : Row.t T),
    skipped row = false ->
    let st' := step z_entry z_exit trade_notional st row in
    let z := Row.zscore row in
    position st' = next_position z_entry z_exit (position st) z
    /\ (position st = 0 ->
        (position st' = 1 <-> nltb z (nopp z_entry) = true)
        /\ (position st' = -1 <->
            nltb z (nopp z_entry) = false /\ nltb z_entry z = true)
        /\ (position st' = 0 <->
            nltb z (nopp z_entry) = false /\ nltb z_entry z = false)
        /\ (position st' <> 0 ->
            entry_price_3m st' = Row.btc_3m row
            /\ entry_price_perp st' = Row.btc_perp row
            /\ entry_hedge_ratio st' = Row.hedge_ratio row))
    /\ (position st = 1 ->
        (position st' = 0 <-> nltb z z_exit = true)
        /\ (position st' = 1 <-> nltb z z_exit = false)
        /\ position st' <> -1)
    /\ (position st = -1 ->
        (position st' = 0 <-> nltb (nopp z_exit) z = true)
        /\ (position st' = -1 <-> nltb (nopp z_exit) z = false)
        /\ position st' <> 1).
Proof.
  intros T N z_entry z_exit tn st row Hel st' z.
  assert (Hpos : position st'
                 = next_position z_entry z_exit (position st) z).
  { unfold st'. rewrite step_position, Hel. reflexivity. }
  split; [ exact Hpos | ].
  split; [ | split ].
  - intros E0.
    assert (Hdata : position st' <> 0 ->
                    entry_price_3m st' = Row.btc_3m row
                    /\ entry_price_perp st' = Row.btc_perp row
                    /\ entry_hedge_ratio st' = Row.hedge_ratio row).
    { unfold st'. rewrite step_eligible by exact Hel.
      cbn [position entry_price_3m entry_price_perp entry_hedge_ratio].
      intros NE. apply trade_entry_data; assumption. }
    rewrite Hpos. rewrite Hpos in Hdata.
    unfold next_position in *. rewrite E0 in *; cbn [Z.eqb] in *.
    split; [ | split; [ | split ] ]; [ | | | exact Hdata ].
    + destruct (nltb z (nopp z_entry)); [ tauto | ].
      destruct (nltb z_entry z); split; intros; discriminate.
    + destruct (nltb z (nopp z_entry)).
      * split; [ discriminate | intros [? _]; discriminate ].
      * destruct (nltb z_entry z); split; auto; try discriminate.
        intros [_ ?]; discriminate.
    + destruct (nltb z (nopp z_entry)).
      * split; [ discriminate | intros [? _]; discriminate ].
      * destruct (nltb z_entry z); split; auto; try discriminate.
        intros [_ ?]; discriminate.
  - intros E1. rewrite Hpos. unfold next_position. rewrite E1; cbn [Z.eqb].
    destruct (nltb z z_exit); repeat split; intros; try discriminate; auto.
  - intros E2. rewrite Hpos. unfold next_position. rewrite E2; cbn [Z.eqb].
    destruct (nltb (nopp z_exit) z); repeat split; intros;
      try discriminate; auto.
Qed.

Lemma position_transitions_witness :
  let st := loop_init 100000%float in
  let row := Row.mk 7 101%float 100%float (-0.5)%float 1%float (-1.2)%float in
  skipped row = false
  /\ position (step 0.8%float 0.8%float 100000%float st row) = 1.
Proof.
  cbv zeta. split; [ reflexivity | ].
  pose proof (@position_transitions float Num_float 0.8%float 0.8%float
                100000%float (loop_init 100000%float)
                (Row.mk 7 101%float 100%float (-0.5)%float 1%float
                        (-1.2)%float)
                eq_refl) as Hall.
  cbv zeta in Hall. destruct Hall as (_ & Hflat & _).
  destruct (Hflat eq_refl) as (Hlong & _).
  apply Hlong. reflexivity.
Defined.

(** C3 as the specification words it fails for the short entry: with a
    negative entry threshold both entry tests can hold, and the long one,
    tried first, wins.  Here [zscore = 0 > z_entry = -1] on an eligible
    row, and the flat position goes long, not short. *)
Lemma flat_to_short_counterexample :
  let st := loop_init 100000%float in
  let row := Row.mk 7 101%float 100%float 0.2%float 1%float 0%float in
  skipped row = false
  /\ position st = 0
  /\ nltb (-1)%float (Row.zscore row) = true
  /\ position (step (-1)%float 0.8%float 100000%float st row) = 1.
Proof. cbv zeta. repeat split. Qed.

(** C4.  A row whose hedge ratio is non-positive, or below 0.05 in absolute
    value, leaves every loop variable as it was: position, equity, the
    entry prices and the entry hedge ratio, and the trade log (so nothing
    is entered, exited or marked on that row). *)
Theorem skipped_row_changes_nothing :
  forall (T : Type) (N : Num T) (z_entry z_exit trade_notional : T)
         (st : Loop T) (row : Row.t T),
    nleb (Row.hedge_ratio row) nzero = true
    \/ nltb (nabs (Row.hedge_ratio row)) hedge_floor = true ->
    step z_entry z_exit trade_notional st row = st.
Proof.
  intros T N z_entry z_exit tn st row Hcond.
  apply step_skipped. unfold skipped.
  destruct Hcond as [-> | ->]; [ reflexivity | apply orb_true_r ].
Qed.

Lemma skipped_row_changes_nothing_witness :
  let open_long :=
    mkLoop 1 100000%float ([] : list (TradeLogEntry.t float))
           100%float 99%float 1.01%float in
  let row := Row.mk 9 150%float 90%float 3%float 0.04%float 2.5%float in
  (nleb (Row.hedge_ratio row) nzero = true
   \/ nltb (nabs (Row.hedge_ratio row)) hedge_floor = true)
  /\ step 0.8%float 0.8%float 100000%float open_long row = open_long.
Proof.
  cbv zeta.
  assert (Hc : nleb 0.04%float nzero = true
               \/ nltb (nabs 0.04%float) (hedge_floor (T:=float)) = true)
    by (right; reflexivity).
  split; [ exact Hc | ].
  exact (@skipped_row_changes_nothing float Num_float 0.8%float 0.8%float
           100000%float
           (mkLoop 1 100000%float [] 100%float 99%float 1.01%float)
           (Row.mk 9 150%float 90%float 3%float 0.04%float 2.5%float) Hc).
Defined.

(** C5 (as amended).  The trade log holds, in order, exactly one entry for
    each eligible row of the post-warm-up frame other than its first row,
    written for that row, and none for any ineligible row; the loop starts
    at index 1, so the first row never gets an entry. *)
Theorem trade_log_rows :
  forall (T : Type) (N : Num T)
         (z_entry z_exit initial_capital trade_notional : T)
         (df : list (Row.t T)),
    map entry_key
        (trade_log
           (simulate z_entry z_exit initial_capital trade_notional df))
    = map row_key (filter eligible (tl df)).
Proof.
  intros T N z_entry z_exit ic tn df. unfold simulate.
  rewrite fold_step_log. reflexivity.
Qed.

(** C5 as the specification words it fails on the first row: a frame of
    two eligible rows gives a log of one entry, the one of the second
    row. *)
Lemma trade_log_rows_counterexample :
  let df :=
    [ Row.mk 10 101%float 100%float 0.1%float 1%float 0.3%float;
      Row.mk 11 102%float 100%float 0.2%float 1%float 0.4%float ] in
  map (@Row.name float) (filter eligible df) = [10; 11]
  /\ map (@TradeLogEntry.timestamp float)
         (trade_log (simulate 0.8%float 0.8%float 100000%float 100000%float df))
     = [11].
Proof. cbv zeta. split; reflexivity. Qed.

(** ** The evaluator *)

(** C7 (as amended).  On an empty trade log [evaluate] raises and returns
    no metrics: [KeyError] (line 7, [trade_log["realized_pnl"]]) on the
    frame without columns that [pd.DataFrame] builds from the empty list
    of [run_kalman_backtest], [IndexError] (line 8,
    [trade_log["equity"].iloc[0]]) on a frame with the columns and no row.
    On every frame with a row it returns metrics whose trade count is the
    number of rows.  The empty frames are exactly those two, and [main]
    returns early on an empty log, without the call. *)
Theorem evaluate_raises_on_every_empty_frame :
  (forall (df : Evaluator.DataFrame) (initial_equity : float),
      match df with
      | Evaluator.NoColumns =>
          Evaluator.evaluate_frame df initial_equity = Raise KeyError
      | Evaluator.Columns [] =>
          Evaluator.evaluate_frame df initial_equity = Raise IndexError
      | Evaluator.Columns (_ :: _) =>
          exists m : Evaluator.Metrics,
            Evaluator.evaluate_frame df initial_equity = Ok m
            /\ Evaluator.Number_of_Trades m = Evaluator.len df
      end)
  /\ Evaluator.pd_DataFrame [] = Evaluator.NoColumns
  /\ (forall df : Evaluator.DataFrame,
         Evaluator.empty df = true
         <-> df = Evaluator.NoColumns \/ df = Evaluator.Columns [])
  /\ (forall trade_log : list (TradeLogEntry.t float),
         Evaluator.empty (Evaluator.pd_DataFrame trade_log) = true
         <-> trade_log = [])
  /\ (forall (rolling_mean rolling_std : nat -> list float -> list float)
             (df : list (Z * (float * float))),
         run_kalman_backtest rolling_mean rolling_std
           (M := KalmanFilter.t float)
           df 0.8%float 0.8%float 100000%float 100000%float = Ok []
         -> main rolling_mean rolling_std df = Ok None).
Proof.
  split; [ | split; [ | split; [ | split ] ] ].
  - intros [ | [ | r rest ] ] ie.
    + reflexivity.
    + reflexivity.
    + unfold Evaluator.evaluate_frame, Evaluator.evaluate, Evaluator.len.
      cbn [map Evaluator.iloc_first Evaluator.iloc_last bind].
      eexists; split; reflexivity.
  - reflexivity.
  - intros [ | [ | r rest ] ]; cbn [Evaluator.empty]; split.
    + intros _. left. reflexivity.
    + intros _. reflexivity.
    + intros _. right. reflexivity.
    + intros _. reflexivity.
    + intros E. discriminate E.
    + intros [ E | E ]; discriminate E.
  - intros [ | r rest ]; cbn [Evaluator.pd_DataFrame Evaluator.empty]; split.
    + intros _. reflexivity.
    + intros _. reflexivity.
    + intros E. discriminate E.
    + intros E. discriminate E.
  - intros rm rs df E. unfold main. rewrite E. reflexivity.
Qed.

(** The early return of [main], on a merged frame without rows. *)
Lemma evaluate_raises_on_every_empty_frame_witness :
  main (fun _ s => s) (fun _ s => s) [] = Ok None.
Proof.
  apply (proj2 (proj2 (proj2 (proj2 evaluate_raises_on_every_empty_frame)))).
  reflexivity.
Defined.

(** C7 as the specification words it fails: on the frame the backtest
    returns for an empty log, and on a frame with the columns and no row,
    the evaluator raises instead of returning degenerate metrics. *)
Lemma evaluate_empty_frame_counterexample :
  Evaluator.evaluate_frame (Evaluator.pd_DataFrame []) 1%float
  = Raise KeyError
  /\ Evaluator.evaluate_frame (Evaluator.Columns []) 1%float
     = Raise IndexError.
Proof. split; reflexivity. Qed.

(** C8 (as amended).  On the one-row log with [realized_pnl = 100],
    [unrealized_pnl = 0] and [equity = 100100] the evaluator returns
    Total Return 0 (the last logged equity minus the first, which are the
    same row; the starting equity passed in is not read), Number of Trades
    1 and Sharpe Ratio 0, with Max Drawdown 0 and Average Trade PnL 100. *)
Theorem evaluate_single_row :
  forall (initial_equity : float) (ts pos : Z) (z sp h : float)
         (entry_signal exit_signal : bool),
    Evaluator.evaluate
      [TradeLogEntry.mk ts pos z sp h 100%float 0%float 100100%float
                        entry_signal exit_signal]
      initial_equity
    = Ok (Evaluator.mkMetrics 0%float 0%float 0%float 1 100%float).
Proof. intros; reflexivity. Qed.

(** C8 as the specification words it fails on Total Return: with starting
    equity 100000 the evaluator answers 0, not 100. *)
Lemma evaluate_single_row_counterexample :
  exists m : Evaluator.Metrics,
    Evaluator.evaluate
      [TradeLogEntry.mk 0 0 0.5%float 0.1%float 1%float 100%float 0%float
                        100100%float false true]
      100000%float
    = Ok m
    /\ Evaluator.Total_Return m = 0%float
    /\ PrimFloat.eqb (Evaluator.Total_Return m) 100%float = false
    /\ Evaluator.Number_of_Trades m = 1%nat
    /\ Evaluator.Sharpe_Ratio m = 0%float.
Proof. eexists; repeat split. Qed.

(** ** Binary64 facts: what a zero divisor starts cannot become finite *)

Lemma prim2sf_zero : Prim2SF 0%float = S754_zero false.
Proof. reflexivity. Qed.

Lemma div_by_zero_nonfinite (a d : float) :
  PrimFloat.eqb d 0%float = true -> nonfinite (a / d)%float = true.
Proof.
  unfold nonfinite. rewrite FloatAxioms.eqb_spec, FloatAxioms.div_spec, prim2sf_zero.
  unfold SF64div.
  destruct (Prim2SF d) as [ sd | sd | | sd md ed ]; try destruct sd;
    cbn [SFeqb SFcompare]; try discriminate;
    destruct (Prim2SF a) as [ sa | sa | | sa ma ea ]; reflexivity.
Qed.

Lemma mul_nonfinite_l (k e : float) :
  nonfinite k = true -> nonfinite (k * e)%float = true.
Proof.
  unfold nonfinite. rewrite FloatAxioms.mul_spec. unfold SF64mul.
  destruct (Prim2SF k) as [ sk | sk | | sk mk ek ];
    destruct (Prim2SF e) as [ se | se | | se me ee ];
    cbn; congruence.
Qed.

Lemma add_nonfinite_r (b k : float) :
  nonfinite k = true -> nonfinite (b + k)%float = true.
Proof.
  unfold nonfinite. rewrite FloatAxioms.add_spec. unfold SF64add.
  destruct (Prim2SF k) as [ sk | sk | | sk mk ek ];
    destruct (Prim2SF b) as [ sb | sb | | sb mb eb ];
    try destruct sk; try destruct sb; cbn; congruence.
Qed.

Lemma add_nonfinite_l (k r : float) :
  nonfinite k = true -> nonfinite (k + r)%float = true.
Proof.
  unfold nonfinite. rewrite FloatAxioms.add_spec. unfold SF64add.
  destruct (Prim2SF k) as [ sk | sk | | sk mk ek ];
    destruct (Prim2SF r) as [ sr | sr | | sr mr er ];
    try destruct sk; try destruct sr; cbn; congruence.
Qed.

Lemma sub_nonfinite_r (p k : float) :
  nonfinite k = true -> nonfinite (p - k)%float = true.
Proof.
  unfold nonfinite. rewrite FloatAxioms.sub_spec. unfold SF64sub.
  destruct (Prim2SF k) as [ sk | sk | | sk mk ek ];
    destruct (Prim2SF p) as [ sp | sp | | sp mp ep ];
    try destruct sk; try destruct sp; cbn; congruence.
Qed.

Lemma nan_nonfinite : nonfinite nan = true.
Proof. reflexivity. Qed.

(** C6 (as amended).  Neither variant tests the gain denominator.  When it
    is zero, [update] still returns normally, and what it stores is not
    finite: both entries of [beta] and all four of the covariance are NaN
    or infinite (in the windowed variant, on a call that does not end in
    the window reset); in the continuous variant the next call then returns
    a prediction and a residual that are not finite either. *)
Theorem zero_denominator_goes_unchecked :
  forall (kf : KalmanFilter.t float) (rkf : RollingKalmanFilter.t float)
         (y x : float),
    (PrimFloat.eqb (kf_denominator kf x) 0%float = true ->
     let after := snd (KalmanFilter.update kf y x) in
     vec_nonfinite (KalmanFilter.beta after) = true
     /\ mat_nonfinite (KalmanFilter.P after) = true
     /\ forall y' x' : float,
         nonfinite (fst (fst (KalmanFilter.update after y' x'))) = true
         /\ nonfinite (snd (fst (KalmanFilter.update after y' x'))) = true)
    /\ (PrimFloat.eqb (rkf_denominator rkf x) 0%float = true ->
        Z.of_nat (S (length (RollingKalmanFilter.spread_history rkf)))
        <= RollingKalmanFilter.window rkf ->
        exists (out : float * float) (after : RollingKalmanFilter.t float),
          RollingKalmanFilter.update rkf y x = Ok (out, after)
          /\ vec_nonfinite (RollingKalmanFilter.beta after) = true
          /\ mat_nonfinite (RollingKalmanFilter.P after) = true).
Proof.
  intros kf rkf y x; split.
  - destruct kf as [d r [b0 b1] [[p00 p01] [p10 p11]] vw ve].
    unfold kf_denominator, KalmanFilter.update; cbn.
    intros Hden.
    pose proof (fun a => @div_by_zero_nonfinite a _ Hden) as Hk.
    assert (Hb0 : forall b e k, nonfinite k = true ->
                                nonfinite (b + k * e)%float = true)
      by (intros; apply add_nonfinite_r, mul_nonfinite_l; assumption).
    assert (Hp : forall p k u, nonfinite k = true ->
                               nonfinite (p - k * u + r)%float = true)
      by (intros; apply add_nonfinite_l, sub_nonfinite_r, mul_nonfinite_l;
          assumption).
    unfold vec_nonfinite, mat_nonfinite, vec_nonfinite; cbn.
    repeat split.
    + rewrite !Hb0 by apply Hk. reflexivity.
    + rewrite !Hp by apply Hk. reflexivity.
    + apply add_nonfinite_l, mul_nonfinite_l, Hb0, Hk.
    + apply sub_nonfinite_r, add_nonfinite_l, mul_nonfinite_l, Hb0, Hk.
  - destruct rkf as [w d r [b0 b1] [[p00 p01] [p10 p11]]
                       [[v00 v01] [v10 v11]] ve hist].
    unfold rkf_denominator, RollingKalmanFilter.update; cbn.
    intros Hden Hlen.
    rewrite length_app, Nat.add_1_r.
    destruct (Z.gtb_spec (Z.of_nat (S (length hist))) w) as [Hgt | _];
      [ lia | ].
    eexists; eexists; split; [ reflexivity | ].
    pose proof (fun a => @div_by_zero_nonfinite a _ Hden) as Hk.
    assert (Hb0 : forall b e k, nonfinite k = true ->
                                nonfinite (b + k * e)%float = true)
      by (intros; apply add_nonfinite_r, mul_nonfinite_l; assumption).
    assert (Hp : forall p k u, nonfinite k = true ->
                               nonfinite (p - k * u)%float = true)
      by (intros; apply sub_nonfinite_r, mul_nonfinite_l; assumption).
    unfold vec_nonfinite, mat_nonfinite, vec_nonfinite; cbn.
    split.
    + rewrite !Hb0 by apply Hk. reflexivity.
    + rewrite !Hp by apply Hk. reflexivity.
Qed.

Lemma zero_denominator_goes_unchecked_witness :
  let kf := KalmanFilter.mk 0.01%float 0%float (1, 0)%float
              ((0, 0), (0, 1))%float ((0, 0), (0, 0))%float 0%float in
  let rkf := RollingKalmanFilter.mk 500 0%float 0%float (1, 0)%float
               ((0, 0), (0, 1))%float ((0, 0), (0, 0))%float 0%float
               [1%float] in
  PrimFloat.eqb (kf_denominator kf 0%float) 0%float = true
  /\ vec_nonfinite
       (KalmanFilter.beta (snd (KalmanFilter.update kf 1%float 0%float)))
     = true
  /\ PrimFloat.eqb (rkf_denominator rkf 0%float) 0%float = true
  /\ exists out after,
       RollingKalmanFilter.update rkf 1%float 0%float = Ok (out, after)
       /\ vec_nonfinite (RollingKalmanFilter.beta after) = true
       /\ mat_nonfinite (RollingKalmanFilter.P after) = true.
Proof.
  cbv zeta.
  pose proof (zero_denominator_goes_unchecked
                (KalmanFilter.mk 0.01%float 0%float (1, 0)%float
                   ((0, 0), (0, 1))%float ((0, 0), (0, 0))%float 0%float)
                (RollingKalmanFilter.mk 500 0%float 0%float (1, 0)%float
                   ((0, 0), (0, 1))%float ((0, 0), (0, 0))%float 0%float
                   [1%float])
                1%float 0%float) as [Hkf Hrkf].
  split; [ reflexivity | ].
  split; [ exact (proj1 (Hkf eq_refl)) | ].
  split; [ reflexivity | ].
  apply Hrkf; [ reflexivity | cbn; lia ].
Defined.

(** C6 as the specification words it fails, on reachable states.  The
    continuous estimator built with [R = 0] and fed [(1, 0)] twice meets a
    zero denominator at the second call, which returns [(1, 0)] and leaves
    NaN in [beta] and the covariance; the windowed one built with
    [delta = 0, R = 0] does the same.  No error is raised. *)
Lemma zero_denominator_counterexample :
  exists (k0 : KalmanFilter.t float) (r0 r1 : RollingKalmanFilter.t float)
         (out1 : float * float),
    KalmanFilter.init 0.01%float 0%float = Ok k0
    /\ PrimFloat.eqb
         (kf_denominator (snd (KalmanFilter.update k0 1%float 0%float))
                         0%float) 0%float = true
    /\ KalmanFilter.update (snd (KalmanFilter.update k0 1%float 0%float))
                           1%float 0%float
       = ((1, 0)%float,
          KalmanFilter.mk 0.01%float 0%float (nan, nan)
                          ((nan, nan), (nan, nan)) (KalmanFilter.Vw k0)
                          0%float)
    /\ RollingKalmanFilter.init 500 0%float 0%float = Ok r0
    /\ RollingKalmanFilter.update r0 1%float 0%float = Ok (out1, r1)
    /\ PrimFloat.eqb (rkf_denominator r1 0%float) 0%float = true
    /\ RollingKalmanFilter.update r1 1%float 0%float
       = Ok ((1, 0)%float,
             RollingKalmanFilter.mk 500 0%float 0%float (nan, nan)
               ((nan, nan), (nan, nan)) (RollingKalmanFilter.Vw r0)
               0%float [1; 0]%float).
Proof.
  do 4 eexists.
  split; [ vm_compute; reflexivity | ].
  split; [ vm_compute; reflexivity | ].
  split; [ vm_compute; reflexivity | ].
  split; [ vm_compute; reflexivity | ].
  split; [ vm_compute; reflexivity | ].
  split; vm_compute; reflexivity.
Qed.

(** ** Positive semi-definiteness of the covariance, in exact arithmetic *)

Section PsdFacts.
#[local] Open Scope R_scope.

Lemma psd_entries (p00 p01 p11 : R) :
  (forall a b : R, 0 <= a * (p00 * a + p01 * b) + b * (p01 * a + p11 * b)) ->
  0 <= p00 /\ 0 <= p11 /\ 0 <= p00 * p11 - p01 * p01.
Proof.
  intros Hq.
  pose proof (Hq 1 0) as H10. pose proof (Hq 0 1) as H01.
  pose proof (Hq p11 (- p01)) as Ha. pose proof (Hq (- p01) p00) as Hb.
  pose proof (Hq 1 (- p01)) as Hc.
  repeat split; try lra.
  destruct (Rle_lt_dec p00 0) as [Hz | Hpos].
  - assert (p00 = 0) by lra. subst p00.
    destruct (Rle_lt_dec p11 0) as [Hz1 | Hpos1].
    + assert (p11 = 0) by lra. subst p11. nra.
    + nra.
  - nra.
Qed.

Lemma eye_psd : sym_psd (np_eye2 (T:=R)).
Proof.
  unfold sym_psd, symmetric, quad_form; cbn. split; [ reflexivity | ].
  intros [a b]; cbn. nra.
Qed.

Lemma mat_add_psd (A B : mat R) :
  sym_psd A -> sym_psd B -> sym_psd (mat_add A B).
Proof.
  destruct A as [[a00 a01] [a10 a11]], B as [[b00 b01] [b10 b11]].
  unfold sym_psd, symmetric, quad_form; cbn.
  intros [Ha Hqa] [Hb Hqb]. split; [ congruence | ].
  intros [u v]. pose proof (Hqa (u, v)) as H1. pose proof (Hqb (u, v)) as H2.
  cbn in *. lra.
Qed.

(** Adding a non-negative scalar to every entry. *)
Lemma mat_add_s_psd (A : mat R) (r : R) :
  sym_psd A -> 0 <= r -> sym_psd (mat_add_s A r).
Proof.
  destruct A as [[a00 a01] [a10 a11]].
  unfold sym_psd, symmetric, quad_form; cbn.
  intros [Ha Hqa] Hr. split; [ congruence | ].
  intros [u v]. pose proof (Hqa (u, v)) as H1. cbn in *.
  pose proof (Rle_0_sqr (u + v)) as Hsq. unfold Rsqr in Hsq. nra.
Qed.

(** The measurement update [P - outer(P.x / d, x.P)] with
    [d = x.P.x + ve]: [d] times its quadratic form at [(a, b)] is
    [ve * (v.P.v) + det P * (b - a x)^2]. *)
Lemma measurement_update_psd (M : mat R) (x ve d : R) :
  sym_psd M -> 0 <= ve -> d <> 0 ->
  d = quad_form M (1, x) + ve ->
  sym_psd (mat_sub M (np_outer (vec_div_s (np_dot_mv M (1, x)) d)
                               (np_dot_vm (1, x) M))).
Proof.
  destruct M as [[p00 p01] [p10 p11]].
  unfold sym_psd, symmetric, quad_form. cbn.
  intros [Hs Hq] Hve Hd0 Hd. subst p10.
  destruct (@psd_entries p00 p01 p11 (fun a b => Hq (a, b)))
    as (H00 & H11 & Hdet).
  assert (Hpos : 0 < d).
  { pose proof (Hq (1, x)) as H1. cbn in H1. lra. }
  split.
  - field. exact Hd0.
  - intros [a b]. cbn.
    assert (E : a * ((p00 - (p00 * 1 + p01 * x) / d * (1 * p00 + x * p01)) * a +
                     (p01 - (p00 * 1 + p01 * x) / d * (1 * p01 + x * p11)) * b) +
                b * ((p01 - (p01 * 1 + p11 * x) / d * (1 * p00 + x * p01)) * a +
                     (p11 - (p01 * 1 + p11 * x) / d * (1 * p01 + x * p11)) * b)
                = (ve * (a * (p00 * a + p01 * b) + b * (p01 * a + p11 * b))
                   + (p00 * p11 - p01 * p01) * ((b - a * x) * (b - a * x)))
                  / d).
    { apply (Rmult_eq_reg_l d); [ | exact Hd0 ].
      field_simplify; [ | exact Hd0 | exact Hd0 ].
      rewrite Hd. field. }
    rewrite E.
    apply Rmult_le_pos.
    + pose proof (Hq (a, b)) as Hab. cbn in Hab.
      pose proof (Rle_0_sqr (b - a * x)) as Hsq. unfold Rsqr in Hsq.
      nra.
    + left. apply Rinv_0_lt_compat. exact Hpos.
Qed.

Lemma rkf_denominator_quad (self : RollingKalmanFilter.t R) (x : R) :
  rkf_denominator self x
  = quad_form (mat_add (RollingKalmanFilter.P self)
                       (RollingKalmanFilter.Vw self)) (1, x)
    + RollingKalmanFilter.Ve self.
Proof.
  destruct self as [w d r b [[p00 p01] [p10 p11]] [[v00 v01] [v10 v11]] ve h].
  unfold rkf_denominator, quad_form; cbn. ring.
Qed.

(** A windowed estimator whose [delta] is not 1 can always be reset. *)
Lemma rkf_reset_succeeds (self : RollingKalmanFilter.t R) :
  RollingKalmanFilter.delta self <> 1 ->
  exists k, RollingKalmanFilter.reset self = Ok k
            /\ RollingKalmanFilter.P k = np_eye2.
Proof.
  intros Hd. unfold RollingKalmanFilter.reset, py_truediv; cbn.
  unfold Reqb. destruct (Req_dec_T (1 - RollingKalmanFilter.delta self) 0).
  - exfalso; lra.
  - cbn. eexists; split; reflexivity.
Qed.

(** With [0 <= delta < 1] the process-noise matrix that [reset] installs
    is symmetric positive semi-definite. *)
Lemma rkf_init_Vw_psd (w : Z) (delta r : R) (k : RollingKalmanFilter.t R) :
  0 <= delta < 1 ->
  RollingKalmanFilter.init w delta r = Ok k ->
  sym_psd (RollingKalmanFilter.Vw k)
  /\ RollingKalmanFilter.delta k <> 1
  /\ RollingKalmanFilter.Ve k = RollingKalmanFilter.R k.
Proof.
  intros Hd. unfold RollingKalmanFilter.init, RollingKalmanFilter.reset.
  unfold py_truediv; cbn. unfold Reqb.
  destruct (Req_dec_T (1 - delta) 0); [ exfalso; lra | ].
  cbn. intros E; injection E as <-; cbn.
  split; [ | split; [ lra | reflexivity ] ].
  unfold sym_psd, symmetric, quad_form; cbn. split; [ ring | ].
  intros [a b]; cbn.
  assert (Hq : 0 <= delta / (1 - delta)).
  { apply Rmult_le_pos; [ lra | left; apply Rinv_0_lt_compat; lra ]. }
  nra.
Qed.
End PsdFacts.

(** Without rounding an update keeps the covariance symmetric positive
    semi-definite when it is so before the call, the measurement noise is
    non-negative and the gain denominator is not zero; for the windowed
    variant the process-noise matrix [Vw] has to be symmetric positive
    semi-definite as well (it is for [0 <= delta < 1]), and [delta <> 1]
    lets the window reset go through.  This is the idealisation only: the
    binary64 update rounds, see below. *)
Lemma covariance_stays_psd_exact :
  (forall (self : KalmanFilter.t R) (y x : R),
      sym_psd (KalmanFilter.P self) ->
      (0 <= KalmanFilter.R self)%R ->
      KalmanFilter.Ve self = KalmanFilter.R self ->
      kf_denominator self x <> 0%R ->
      sym_psd (KalmanFilter.P (snd (KalmanFilter.update self y x))))
  /\ (forall (self : RollingKalmanFilter.t R) (y x : R),
         sym_psd (RollingKalmanFilter.P self) ->
         sym_psd (RollingKalmanFilter.Vw self) ->
         (0 <= RollingKalmanFilter.R self)%R ->
         RollingKalmanFilter.Ve self = RollingKalmanFilter.R self ->
         rkf_denominator self x <> 0%R ->
         RollingKalmanFilter.delta self <> 1%R ->
         exists (out : R * R) (k : RollingKalmanFilter.t R),
           RollingKalmanFilter.update self y x = Ok (out, k)
           /\ sym_psd (RollingKalmanFilter.P k)).
Proof.
  split.
  - intros self y x Hpsd Hr Hve Hden.
    unfold KalmanFilter.update; cbn [snd KalmanFilter.P].
    apply mat_add_s_psd; [ | exact Hr ].
    apply (@measurement_update_psd (KalmanFilter.P self) x
                                   (KalmanFilter.Ve self));
      [ exact Hpsd | rewrite Hve; exact Hr | exact Hden | reflexivity ].
  - intros self y x Hpsd Hvw Hr Hve Hden Hdelta.
    assert (Hnew :
              sym_psd
                (mat_sub
                   (mat_add (RollingKalmanFilter.P self)
                            (RollingKalmanFilter.Vw self))
                   (np_outer
                      (vec_div_s
                         (np_dot_mv
                            (mat_add (RollingKalmanFilter.P self)
                                     (RollingKalmanFilter.Vw self))
                            (1%R, x))
                         (rkf_denominator self x))
                      (np_dot_vm (1%R, x)
                                 (mat_add (RollingKalmanFilter.P self)
                                          (RollingKalmanFilter.Vw self)))))).
    { apply (@measurement_update_psd _ x (RollingKalmanFilter.Ve self)).
      - apply mat_add_psd; assumption.
      - rewrite Hve; exact Hr.
      - exact Hden.
      - apply rkf_denominator_quad. }
    unfold RollingKalmanFilter.update.
    match goal with
    | |- context [if ?c then _ else _] => destruct c
    end.
    + match goal with
      | |- context [RollingKalmanFilter.reset ?s] =>
          destruct (@rkf_reset_succeeds s Hdelta) as (k & Ek & Pk)
      end.
      rewrite Ek; cbn [bind]. eexists; eexists; split; [ reflexivity | ].
      rewrite Pk. apply eye_psd.
    + eexists; eexists; split; [ reflexivity | ].
      exact Hnew.
Qed.

(** ** Symmetry of the covariance in binary64 *)

Section SymmetryFacts.
#[local] Open Scope float_scope.

(** Binary64 multiplication commutes. *)
Lemma float_mul_comm (a b : float) : a * b = b * a.
Proof.
  apply Prim2SF_inj. rewrite !FloatAxioms.mul_spec.
  unfold SF64mul, SFmul.
  destruct (Prim2SF a) as [sa | sa | | sa ma ea],
           (Prim2SF b) as [sb | sb | | sb mb eb];
    try reflexivity;
    try (rewrite (xorb_comm sa sb); reflexivity).
  rewrite (xorb_comm sa sb), (Pos.mul_comm ma mb), (Z.add_comm ea eb).
  reflexivity.
Qed.

(** On a symmetric matrix [np.dot(x_vec, M)] and [np.dot(M, x_vec)] are
    the same vector, bit for bit. *)
Lemma symmetric_dot (M : mat float) (x : float) :
  symmetric_mat M -> np_dot_vm (1, x) M = np_dot_mv M (1, x).
Proof.
  destruct M as [[p00 p01] [p10 p11]]. unfold symmetric_mat. cbn.
  intros ->. unfold np_dot_vm, np_dot_mv; cbn.
  rewrite (float_mul_comm 1 p00), (float_mul_comm x p10),
          (float_mul_comm 1 p10), (float_mul_comm x p11).
  reflexivity.
Qed.

Lemma mat_add_symmetric (A B : mat float) :
  symmetric_mat A -> symmetric_mat B -> symmetric_mat (mat_add A B).
Proof.
  destruct A as [[a00 a01] [a10 a11]], B as [[b00 b01] [b10 b11]].
  unfold symmetric_mat; cbn. intros -> ->. reflexivity.
Qed.
End SymmetryFacts.

(** C9 (as amended).  In binary64, as the code runs, an update does not
    keep the covariance symmetric positive semi-definite.  What it keeps of
    a symmetric covariance [P] (windowed variant: of the predicted
    covariance [P + Vw] with [Vw] symmetric too, on a call that does not
    end in a window reset) is this: [np.dot(x_vec, P)] and
    [np.dot(P, x_vec)] are the same vector [g]; with [d] the gain
    denominator, the off-diagonal entries of the new covariance are
    [P01 - (g0 / d) * g1] and [P01 - (g1 / d) * g0] (each plus [R] in the
    continuous variant); so the new covariance is symmetric exactly when
    these two roundings agree.  A windowed call that ends in a reset
    leaves the identity. *)
Theorem covariance_symmetric_up_to_rounding :
  forall (kf : KalmanFilter.t float) (rkf : RollingKalmanFilter.t float)
         (y x : float),
    (symmetric_mat (KalmanFilter.P kf) ->
     let g := np_dot_mv (KalmanFilter.P kf) (1%float, x) in
     let d := kf_denominator kf x in
     let p01 := snd (fst (KalmanFilter.P kf)) in
     let after := KalmanFilter.P (snd (KalmanFilter.update kf y x)) in
     np_dot_vm (1%float, x) (KalmanFilter.P kf) = g
     /\ snd (fst after)
        = (p01 - fst g / d * snd g + KalmanFilter.R kf)%float
     /\ fst (snd after)
        = (p01 - snd g / d * fst g + KalmanFilter.R kf)%float
     /\ (symmetric_mat after
         <-> (p01 - fst g / d * snd g + KalmanFilter.R kf
              = p01 - snd g / d * fst g + KalmanFilter.R kf)%float))
    /\ (symmetric_mat (RollingKalmanFilter.P rkf) ->
        symmetric_mat (RollingKalmanFilter.Vw rkf) ->
        Z.of_nat (S (length (RollingKalmanFilter.spread_history rkf)))
        <= RollingKalmanFilter.window rkf ->
        let P1 := mat_add (RollingKalmanFilter.P rkf)
                          (RollingKalmanFilter.Vw rkf) in
        let g := np_dot_mv P1 (1%float, x) in
        let d := rkf_denominator rkf x in
        let p01 := snd (fst P1) in
        np_dot_vm (1%float, x) P1 = g
        /\ exists (out : float * float) (k : RollingKalmanFilter.t float),
             RollingKalmanFilter.update rkf y x = Ok (out, k)
             /\ snd (fst (RollingKalmanFilter.P k))
                = (p01 - fst g / d * snd g)%float
             /\ fst (snd (RollingKalmanFilter.P k))
                = (p01 - snd g / d * fst g)%float
             /\ (symmetric_mat (RollingKalmanFilter.P k)
                 <-> (p01 - fst g / d * snd g
                      = p01 - snd g / d * fst g)%float))
    /\ (RollingKalmanFilter.window rkf
        < Z.of_nat (S (length (RollingKalmanFilter.spread_history rkf))) ->
        forall k0 : RollingKalmanFilter.t float,
          RollingKalmanFilter.reset rkf = Ok k0 ->
          exists out : float * float,
            RollingKalmanFilter.update rkf y x = Ok (out, k0)
            /\ RollingKalmanFilter.P k0 = np_eye2).
Proof.
  intros kf rkf y x. split; [ | split ].
  - intros Hs. cbv zeta.
    split; [ exact (symmetric_dot x Hs) | ].
    destruct kf as [dl r b [[p00 p01] [p10 p11]] vw ve].
    unfold symmetric_mat in Hs |- *. cbn in Hs. subst p10.
    unfold KalmanFilter.update, kf_denominator, mat_add_s, mat_sub, np_outer,
      vec_div_s, np_dot_vm, np_dot_mv, np_dot_vv.
    cbn.
    rewrite (float_mul_comm 1 p01), (float_mul_comm x p11),
            (float_mul_comm 1 p00), (float_mul_comm x p01).
    split; [ reflexivity | ]. split; [ reflexivity | ].
    split; intros E; exact E.
  - intros Hp Hv Hlen. cbv zeta.
    pose proof (mat_add_symmetric Hp Hv) as Hs.
    split; [ exact (symmetric_dot x Hs) | ].
    unfold RollingKalmanFilter.update.
    cbn [RollingKalmanFilter.window RollingKalmanFilter.spread_history].
    rewrite length_app, Nat.add_1_r.
    destruct (Z.gtb_spec
                (Z.of_nat (S (length (RollingKalmanFilter.spread_history rkf))))
                (RollingKalmanFilter.window rkf)) as [Hgt | _];
      [ lia | ].
    eexists; eexists; split; [ reflexivity | ].
    cbn [RollingKalmanFilter.P].
    unfold rkf_denominator.
    destruct (mat_add (RollingKalmanFilter.P rkf) (RollingKalmanFilter.Vw rkf))
      as [[p00 p01] [p10 p11]].
    unfold symmetric_mat in Hs |- *. cbn in Hs. subst p10.
    unfold mat_sub, np_outer, vec_div_s, np_dot_vm, np_dot_mv, np_dot_vv.
    cbn.
    rewrite (float_mul_comm 1 p01), (float_mul_comm x p11),
            (float_mul_comm 1 p00), (float_mul_comm x p01).
    split; [ reflexivity | ]. split; [ reflexivity | ].
    split; intros E; exact E.
  - intros Hlen k0 Hreset.
    destruct (@rkf_update_rollover _ _ rkf k0 y x Hlen Hreset) as [out E].
    exists out. split; [ exact E | ].
    destruct (rkf_reset_fields rkf Hreset) as (_ & _ & _ & _ & P0 & _).
    exact P0.
Qed.

(** At the default estimators: the identity covariance, [x = 11]. *)
Lemma covariance_symmetric_up_to_rounding_witness :
  let kf := KalmanFilter.mk 0.01%float 0.001%float (0, 0)%float
              ((1, 0), (0, 1))%float ((1, 0), (0, 1))%float 0.001%float in
  let rkf := RollingKalmanFilter.mk 500 0.00001%float 0.001%float
               (0, 0)%float ((1, 0), (0, 1))%float
               ((0.5, 0), (0, 0.5))%float 0.001%float [] in
  let rkf0 := RollingKalmanFilter.mk 0 0.5%float 0.001%float
                (0, 0)%float ((1, 0), (0, 1))%float
                ((1, 0), (0, 1))%float 0.001%float [] in
  (symmetric_mat (KalmanFilter.P kf)
   /\ np_dot_vm (1, 11)%float (KalmanFilter.P kf)
      = np_dot_mv (KalmanFilter.P kf) (1, 11)%float)
  /\ (symmetric_mat (RollingKalmanFilter.P rkf)
      /\ symmetric_mat (RollingKalmanFilter.Vw rkf)
      /\ Z.of_nat (S (length (RollingKalmanFilter.spread_history rkf)))
         <= RollingKalmanFilter.window rkf
      /\ np_dot_vm (1, 11)%float
                   (mat_add (RollingKalmanFilter.P rkf)
                            (RollingKalmanFilter.Vw rkf))
         = np_dot_mv (mat_add (RollingKalmanFilter.P rkf)
                              (RollingKalmanFilter.Vw rkf)) (1, 11)%float)
  /\ (RollingKalmanFilter.window rkf0
      < Z.of_nat (S (length (RollingKalmanFilter.spread_history rkf0)))
      /\ RollingKalmanFilter.reset rkf0 = Ok rkf0
      /\ exists out : float * float,
           RollingKalmanFilter.update rkf0 1%float 11%float = Ok (out, rkf0)
           /\ RollingKalmanFilter.P rkf0 = np_eye2).
Proof.
  cbv zeta.
  assert (Hlen : Z.of_nat 1 <= 500) by (cbn; lia).
  assert (Hlen0 : 0 < Z.of_nat 1) by (cbn; lia).
  split; [ | split ].
  - split; [ reflexivity | ].
    exact (proj1 (proj1 (covariance_symmetric_up_to_rounding
                           (KalmanFilter.mk 0.01%float 0.001%float
                              (0, 0)%float ((1, 0), (0, 1))%float
                              ((1, 0), (0, 1))%float 0.001%float)
                           (RollingKalmanFilter.mk 500 0.00001%float
                              0.001%float (0, 0)%float
                              ((1, 0), (0, 1))%float
                              ((0.5, 0), (0, 0.5))%float 0.001%float [])
                           1%float 11%float)
                        eq_refl)).
  - split; [ reflexivity | ].
    split; [ reflexivity | ].
    split; [ exact Hlen | ].
    exact (proj1 (proj1 (proj2 (covariance_symmetric_up_to_rounding
                           (KalmanFilter.mk 0.01%float 0.001%float
                              (0, 0)%float ((1, 0), (0, 1))%float
                              ((1, 0), (0, 1))%float 0.001%float)
                           (RollingKalmanFilter.mk 500 0.00001%float
                              0.001%float (0, 0)%float
                              ((1, 0), (0, 1))%float
                              ((0.5, 0), (0, 0.5))%float 0.001%float [])
                           1%float 11%float))
                        eq_refl eq_refl Hlen)).
  - split; [ exact Hlen0 | ].
    split; [ reflexivity | ].
    exact (proj2 (proj2 (covariance_symmetric_up_to_rounding
                           (KalmanFilter.mk 0.01%float 0.001%float
                              (0, 0)%float ((1, 0), (0, 1))%float
                              ((1, 0), (0, 1))%float 0.001%float)
                           (RollingKalmanFilter.mk 0 0.5%float 0.001%float
                              (0, 0)%float ((1, 0), (0, 1))%float
                              ((1, 0), (0, 1))%float 0.001%float [])
                           1%float 11%float))
                 Hlen0 _ eq_refl).
Defined.

(** C9 as the specification words it fails in the running code, three
    times.  [KalmanFilter()] with its defaults starts from the identity
    covariance with [R = 0.001]; its first update at [(y, x) = (1, 11)]
    leaves off-diagonal entries that differ in the last place, so the
    covariance is no longer symmetric.  The windowed estimator built with
    [delta = 2] has process noise [Vw = -2 I]; from the identity covariance
    and [R = 0] one update at [x = 0] leaves the covariance
    [[0, 0], [0, -1]], whose quadratic form at [(0, 1)] is [-1].  The
    continuous estimator built with [R = 0] reaches the covariance
    [[0, 0], [0, 1]], and the next update at [x = 0] divides zero by zero
    and leaves NaN in every entry. *)
Lemma covariance_psd_counterexample :
  (exists k0 k1 : KalmanFilter.t float,
      km_new = Ok k0
      /\ KalmanFilter.P k0 = np_eye2
      /\ PrimFloat.leb 0%float (KalmanFilter.R k0) = true
      /\ k1 = snd (KalmanFilter.update k0 1%float 11%float)
      /\ PrimFloat.eqb (snd (fst (KalmanFilter.P k1)))
                       (fst (snd (KalmanFilter.P k1))) = false
      /\ ~ symmetric_mat (KalmanFilter.P k1))
  /\ (exists k0 : RollingKalmanFilter.t float,
         RollingKalmanFilter.init 500 2%float 0%float = Ok k0
         /\ RollingKalmanFilter.P k0 = np_eye2
         /\ PrimFloat.leb 0%float (RollingKalmanFilter.R k0) = true
         /\ match RollingKalmanFilter.update k0 0%float 0%float with
            | Ok (_, k1) =>
                RollingKalmanFilter.P k1 = ((0, 0), (0, -1))%float
                /\ quad_form (RollingKalmanFilter.P k1) (0, 1)%float
                   = (-1)%float
                /\ PrimFloat.ltb
                     (quad_form (RollingKalmanFilter.P k1) (0, 1)%float)
                     0%float = true
            | Raise _ => False
            end)
  /\ (exists k0 k1 k2 : KalmanFilter.t float,
         KalmanFilter.init 0.01%float 0%float = Ok k0
         /\ k1 = snd (KalmanFilter.update k0 1%float 0%float)
         /\ KalmanFilter.P k1 = ((0, 0), (0, 1))%float
         /\ KalmanFilter.R k1 = 0%float
         /\ k2 = snd (KalmanFilter.update k1 1%float 0%float)
         /\ KalmanFilter.P k2 = ((nan, nan), (nan, nan))
         /\ nleb 0%float (quad_form (KalmanFilter.P k2) (1, 0)%float)
            = false).
Proof.
  split; [ | split ].
  - do 2 eexists.
    split; [ vm_compute; reflexivity | ].
    split; [ reflexivity | ].
    split; [ reflexivity | ].
    split; [ reflexivity | ].
    split; [ vm_compute; reflexivity | ].
    unfold symmetric_mat. intros E.
    apply (f_equal Prim2SF) in E.
    vm_compute in E. discriminate E.
  - eexists.
    split; [ vm_compute; reflexivity | ].
    split; [ reflexivity | ].
    split; [ reflexivity | ].
    vm_compute. repeat split.
  - do 3 eexists.
    split; [ vm_compute; reflexivity | ].
    split; [ reflexivity | ].
    split; [ vm_compute; reflexivity | ].
    split; [ reflexivity | ].
    split; [ reflexivity | ].
    split; vm_compute; reflexivity.
Qed.

(* ================================================================== *)
(** * Further properties of the code *)

(** ** The windowed estimator over whole runs *)

Section RollingRuns.
Context {T : Type} `{Num T}.

Lemma rkf_update_built (w : nat) (k0 self : RollingKalmanFilter.t T)
      (y x : T) :
  built w k0 self ->
  exists out k,
    RollingKalmanFilter.update self y x = Ok (out, k)
    /\ built w k0 k
    /\ length (RollingKalmanFilter.spread_history k)
       = (S (length (RollingKalmanFilter.spread_history self)) mod S w)%nat.
Proof.
  intros (Hreset & Hw & Hd & Hr & Hvw & Hve & Hlen).
  destruct (Nat.eq_dec (length (RollingKalmanFilter.spread_history self)) w)
    as [Efull | Enot].
  - destruct (@rkf_update_rollover T _ self k0 y x) as [out E];
      [ lia | exact Hreset | ].
    exists out, k0. split; [ exact E | ].
    destruct (rkf_reset_fields self Hreset) as (W & D & R0 & _ & _ & _ & Hh).
    split.
    + unfold built. rewrite Hh. cbn [length].
      repeat split; try reflexivity; try lia; try congruence.
      exact (rkf_reset_idem self Hreset).
    + rewrite Hh, Efull. cbn [length]. symmetry. apply Nat.Div0.mod_same.
  - unfold RollingKalmanFilter.update.
    cbn [RollingKalmanFilter.window RollingKalmanFilter.spread_history].
    rewrite length_app, Nat.add_1_r.
    destruct (Z.gtb_spec
                (Z.of_nat (S (length (RollingKalmanFilter.spread_history self))))
                (RollingKalmanFilter.window self)) as [Hgt | _];
      [ lia | ].
    eexists; eexists; split; [ reflexivity | ].
    split.
    + unfold built; cbn.
      rewrite length_app, Nat.add_1_r.
      repeat split; try assumption; try lia.
    + cbn [RollingKalmanFilter.spread_history].
      rewrite length_app, Nat.add_1_r.
      symmetry. apply Nat.mod_small. lia.
Qed.

Lemma rkf_run_built (w : nat) (k0 : RollingKalmanFilter.t T) :
  forall (obs : list (T * T)) (self : RollingKalmanFilter.t T),
    built w k0 self ->
    exists outs k,
      RollingKalmanFilter.run self obs = Ok (outs, k)
      /\ built w k0 k
      /\ length outs = length obs
      /\ length (RollingKalmanFilter.spread_history k)
         = ((length (RollingKalmanFilter.spread_history self) + length obs)
            mod S w)%nat.
Proof.
  induction obs as [ | [y x] rest IH ]; intros self Hb.
  - exists [], self. cbn [RollingKalmanFilter.run length].
    split; [ reflexivity | split; [ exact Hb | split; [ reflexivity | ] ] ].
    rewrite Nat.add_0_r. symmetry. apply Nat.mod_small.
    destruct Hb as (_ & _ & _ & _ & _ & _ & Hlen). lia.
  - destruct (rkf_update_built y x Hb) as (out & k1 & E1 & Hb1 & L1).
    destruct (IH k1 Hb1) as (outs & k & E & Hbk & Lo & Lk).
    exists (out :: outs), k.
    cbn [RollingKalmanFilter.run]. rewrite E1. cbn [bind snd fst].
    rewrite E. cbn [bind snd fst length].
    split; [ reflexivity | split; [ exact Hbk | split; [ lia | ] ] ].
    rewrite Lk, L1. rewrite Nat.Div0.add_mod_idemp_l.
    f_equal. lia.
Qed.

Lemma rkf_init_built (w : nat) (delta r : T) (k0 : RollingKalmanFilter.t T) :
  RollingKalmanFilter.init (Z.of_nat w) delta r = Ok k0 ->
  built w k0 k0.
Proof.
  intros Hinit. unfold RollingKalmanFilter.init in Hinit.
  destruct (rkf_reset_fields _ Hinit) as (W & D & R0 & _ & _ & _ & Hh).
  unfold built. rewrite Hh. cbn in W. cbn [length].
  repeat split; try assumption; try lia.
  exact (rkf_reset_idem _ Hinit).
Qed.

Lemma rkf_run_app (a b : list (T * T)) :
  forall self : RollingKalmanFilter.t T,
    RollingKalmanFilter.run self (a ++ b)
    = (ra <- RollingKalmanFilter.run self a ;;
       rb <- RollingKalmanFilter.run (snd ra) b ;;
       Ok (fst ra ++ fst rb, snd rb)).
Proof.
  induction a as [ | [y x] a IH ]; intros self.
  - cbn. destruct (RollingKalmanFilter.run self b) as [[outs k] | e];
      reflexivity.
  - cbn [app RollingKalmanFilter.run].
    destruct (RollingKalmanFilter.update self y x) as [[out k1] | e];
      [ | reflexivity ].
    cbn [bind snd fst]. rewrite IH.
    destruct (RollingKalmanFilter.run k1 a) as [[outs k2] | e];
      [ | reflexivity ].
    cbn [bind snd fst].
    destruct (RollingKalmanFilter.run k2 b) as [[outs' k3] | e];
      reflexivity.
Qed.

(** With a window that is zero or negative every update ends in the
    reset. *)
Lemma rkf_update_no_window (k0 : RollingKalmanFilter.t T) (y x : T) :
  RollingKalmanFilter.window k0 <= 0 ->
  RollingKalmanFilter.reset k0 = Ok k0 ->
  exists out, RollingKalmanFilter.update k0 y x = Ok (out, k0).
Proof.
  intros Hw Hreset. apply rkf_update_rollover; [ lia | exact Hreset ].
Qed.
End RollingRuns.

(** X1.  A windowed estimator built with window [w >= 0] never fails on a
    run of updates, returns one pair per observation, keeps its
    configuration ([window], [delta], [R], [Vw], [Ve]), and after [n]
    updates holds exactly [n mod (w+1)] residuals in its buffer: the buffer
    never exceeds the window. *)
Theorem rkf_buffer_counts_mod_window :
  forall (T : Type) (N : Num T) (w : nat) (delta r : T)
         (k0 : RollingKalmanFilter.t T) (obs : list (T * T)),
    RollingKalmanFilter.init (Z.of_nat w) delta r = Ok k0 ->
    exists (outs : list (T * T)) (k : RollingKalmanFilter.t T),
      RollingKalmanFilter.run k0 obs = Ok (outs, k)
      /\ length outs = length obs
      /\ length (RollingKalmanFilter.spread_history k)
         = (length obs mod S w)%nat
      /\ (length (RollingKalmanFilter.spread_history k) <= w)%nat
      /\ RollingKalmanFilter.window k = Z.of_nat w
      /\ RollingKalmanFilter.delta k = delta
      /\ RollingKalmanFilter.R k = r
      /\ RollingKalmanFilter.Ve k = r
      /\ RollingKalmanFilter.Vw k = RollingKalmanFilter.Vw k0.
Proof.
  intros T N w delta r k0 obs Hinit.
  pose proof (rkf_init_built w delta r Hinit) as Hb.
  destruct (rkf_run_built obs Hb) as (outs & k & E & Hbk & Lo & Lk).
  unfold RollingKalmanFilter.init in Hinit.
  destruct (rkf_reset_fields _ Hinit) as (_ & D0 & R0 & _ & _ & V0 & Hh).
  cbn in D0, R0, V0.
  destruct Hbk as (_ & W & D & Rk & Vw & Ve & Hlen).
  exists outs, k. rewrite Hh in Lk. cbn [length] in Lk.
  repeat split; try assumption; congruence.
Qed.

Lemma rkf_buffer_counts_mod_window_witness :
  let k0 := RollingKalmanFilter.mk 1 1e-5%float 0.001%float np_zeros2
              np_eye2 (s_mul_mat (1e-5 / (1 - 1e-5))%float np_eye2)
              0.001%float [] in
  let obs := [(101, 100); (102.5, 101); (103, 101.5)]%float in
  RollingKalmanFilter.init (Z.of_nat 1) 1e-5%float 0.001%float = Ok k0
  /\ exists outs k,
       RollingKalmanFilter.run k0 obs = Ok (outs, k)
       /\ length outs = 3%nat
       /\ length (RollingKalmanFilter.spread_history k) = 1%nat.
Proof.
  cbv zeta. split; [ reflexivity | ].
  destruct (@rkf_buffer_counts_mod_window float Num_float 1%nat 1e-5%float
              0.001%float
              (RollingKalmanFilter.mk 1 1e-5%float 0.001%float np_zeros2
                 np_eye2 (s_mul_mat (1e-5 / (1 - 1e-5))%float np_eye2)
                 0.001%float [])
              [(101, 100); (102.5, 101); (103, 101.5)]%float eq_refl)
    as (outs & k & E & Lo & Lk & _).
  exists outs, k. split; [ exact E | split; [ exact Lo | exact Lk ] ].
Defined.

(** X2.  The windowed estimator starts afresh every [w+1] observations: on
    a run whose first [w+1] observations are [a], what is returned for the
    rest [b], and the final state, are those of a fresh estimator fed [b]
    alone. *)
Theorem rkf_blocks_are_independent :
  forall (T : Type) (N : Num T) (w : nat) (delta r : T)
         (k0 : RollingKalmanFilter.t T) (a b : list (T * T)),
    RollingKalmanFilter.init (Z.of_nat w) delta r = Ok k0 ->
    length a = S w ->
    exists outs_a : list (T * T),
      RollingKalmanFilter.run k0 a = Ok (outs_a, k0)
      /\ RollingKalmanFilter.run k0 (a ++ b)
         = (rb <- RollingKalmanFilter.run k0 b ;;
            Ok (outs_a ++ fst rb, snd rb)).
Proof.
  intros T N w delta r k0 a b Hinit Hlen.
  unfold RollingKalmanFilter.init in Hinit.
  destruct (rkf_reset_fields _ Hinit) as (W & _ & _ & _ & _ & _ & Hh).
  cbn in W.
  destruct a as [ | o rest ]; [ discriminate | ].
  destruct (@rkf_run_rollover T N w k0 rest o k0) as [outs Ea].
  - exact W.
  - rewrite Hh. cbn in Hlen |- *. lia.
  - exact (rkf_reset_idem _ Hinit).
  - exists outs. split; [ exact Ea | ].
    rewrite rkf_run_app, Ea. reflexivity.
Qed.

Lemma rkf_blocks_are_independent_witness :
  let k0 := RollingKalmanFilter.mk 1 1e-5%float 0.001%float np_zeros2
              np_eye2 (s_mul_mat (1e-5 / (1 - 1e-5))%float np_eye2)
              0.001%float [] in
  let a := [(101, 100); (102.5, 101)]%float in
  let b := [(103, 101.5)]%float in
  RollingKalmanFilter.init (Z.of_nat 1) 1e-5%float 0.001%float = Ok k0
  /\ length a = 2%nat
  /\ exists outs_a,
       RollingKalmanFilter.run k0 a = Ok (outs_a, k0)
       /\ RollingKalmanFilter.run k0 (a ++ b)
          = (rb <- RollingKalmanFilter.run k0 b ;;
             Ok (outs_a ++ fst rb, snd rb)).
Proof.
  cbv zeta. split; [ reflexivity | split; [ reflexivity | ] ].
  apply (@rkf_blocks_are_independent float Num_float 1%nat 1e-5%float
                                     0.001%float);
    reflexivity.
Defined.

Section RollingNoWindow.
Context {T : Type} `{Num T}.

Lemma estimate_no_window (k0 : RollingKalmanFilter.t T) :
  RollingKalmanFilter.window k0 <= 0 ->
  RollingKalmanFilter.reset k0 = Ok k0 ->
  RollingKalmanFilter.beta k0 = np_zeros2 ->
  forall df : list (Z * (T * T)),
  exists l : list (T * T),
    estimate k0 df = Ok l
    /\ length l = length df
    /\ Forall (fun p => snd p = nzero) l.
Proof.
  intros Hw Hreset Hbeta.
  induction df as [ | [ts [y x]] rest IH ].
  - exists []. cbn. repeat split. constructor.
  - destruct (rkf_update_no_window y x Hw Hreset) as [out E].
    destruct IH as (l & El & Ll & Fl).
    exists ((snd out, nzero) :: l).
    cbn [estimate km_update km_beta RollingKalmanFilter_model].
    rewrite E. cbn [bind snd fst]. rewrite El. cbn [bind].
    rewrite Hbeta. cbn [snd np_zeros2 length].
    split; [ reflexivity | split; [ lia | ] ].
    constructor; [ reflexivity | exact Fl ].
Qed.
End RollingNoWindow.

(** X3.  With a window of zero or less every update ends in the reset, so
    the estimator never learns: Step 1 of the backtest then returns a hedge
    ratio of zero for every row. *)
Theorem rkf_no_window_never_learns :
  forall (T : Type) (N : Num T) (w : Z) (delta r : T)
         (k0 : RollingKalmanFilter.t T) (df : list (Z * (T * T))),
    w <= 0 ->
    RollingKalmanFilter.init w delta r = Ok k0 ->
    exists l : list (T * T),
      estimate k0 df = Ok l
      /\ length l = length df
      /\ Forall (fun p => snd p = nzero) l.
Proof.
  intros T N w delta r k0 df Hw Hinit.
  unfold RollingKalmanFilter.init in Hinit.
  destruct (rkf_reset_fields _ Hinit) as (W & _ & _ & B & _).
  cbn in W.
  apply estimate_no_window.
  - lia.
  - exact (rkf_reset_idem _ Hinit).
  - exact B.
Qed.

Lemma rkf_no_window_never_learns_witness :
  let k0 := RollingKalmanFilter.mk 0 1e-5%float 0.001%float np_zeros2
              np_eye2 (s_mul_mat (1e-5 / (1 - 1e-5))%float np_eye2)
              0.001%float [] in
  let df := [(1, (101%float, 100%float)); (2, (102.5%float, 101%float))] in
  0 <= 0
  /\ RollingKalmanFilter.init 0 1e-5%float 0.001%float = Ok k0
  /\ exists l,
       estimate k0 df = Ok l
       /\ length l = length df
       /\ Forall (fun p => snd p = nzero) l.
Proof.
  cbv zeta. split; [ lia | split; [ reflexivity | ] ].
  apply (@rkf_no_window_never_learns float Num_float 0 1e-5%float
                                     0.001%float);
    [ lia | reflexivity ].
Defined.

(** ** The first update *)

Section FirstUpdate.
#[local] Open Scope float_scope.

(** The prediction [0 * 1 + 0 * x] of zero coefficients: [0] for a finite
    [x], NaN for an infinite or NaN one. *)
Lemma zero_prediction (x : float) :
  np_dot_vv (np_zeros2 (T:=float)) (1, x)
  = if nonfinite x then nan else 0.
Proof.
  unfold np_dot_vv, np_zeros2, nonfinite; cbn.
  apply Prim2SF_inj.
  rewrite FloatAxioms.add_spec, !FloatAxioms.mul_spec.
  change (Prim2SF 0) with (S754_zero false).
  change (Prim2SF 1) with (S754_finite false 4503599627370496 (-52)).
  destruct (Prim2SF x) as [ [ | ] | [ | ] | | [ | ] m e ]; reflexivity.
Qed.

(** Subtracting [+0] changes nothing. *)
Lemma sub_zero_r (y : float) : y - 0 = y.
Proof.
  apply Prim2SF_inj. rewrite FloatAxioms.sub_spec.
  change (Prim2SF 0) with (S754_zero false).
  destruct (Prim2SF y) as [ [ | ] | [ | ] | | [ | ] m e ]; reflexivity.
Qed.

Lemma sub_nan_r (y : float) : y - nan = nan.
Proof.
  apply Prim2SF_inj. rewrite FloatAxioms.sub_spec.
  change (Prim2SF nan) with S754_nan.
  destruct (Prim2SF y) as [ [ | ] | [ | ] | | [ | ] m e ]; reflexivity.
Qed.

(** Prediction and residual from zero coefficients. *)
Lemma first_pair (y x : float) :
  let y_hat := np_dot_vv (np_zeros2 (T:=float)) (1, x) in
  (y_hat, y - y_hat)
  = if nonfinite x then (nan, nan) else (0, y).
Proof.
  cbv zeta. rewrite zero_prediction.
  destruct (nonfinite x); [ rewrite sub_nan_r | rewrite sub_zero_r ];
    reflexivity.
Qed.
End FirstUpdate.

(** X4.  In binary64 the first update of a freshly built estimator, of
    either variant and whatever [delta] and [R], predicts [0] and returns
    the observation [y] itself as the residual when [x] is finite, and
    returns NaN for both when [x] is infinite or NaN.  The windowed
    variant holds that residual alone in its buffer afterwards when the
    window is at least 1, and an empty buffer (the call ended in a reset)
    otherwise. *)
Theorem first_update_returns_observation :
  (forall (delta r y x : float) (k0 : KalmanFilter.t float),
      KalmanFilter.init delta r = Ok k0 ->
      fst (KalmanFilter.update k0 y x)
      = if nonfinite x then (nan, nan) else (0%float, y))
  /\ (forall (w : Z) (delta r y x : float) (k0 : RollingKalmanFilter.t float),
         RollingKalmanFilter.init w delta r = Ok k0 ->
         let out := if nonfinite x then (nan, nan) else (0%float, y) in
         exists k : RollingKalmanFilter.t float,
           RollingKalmanFilter.update k0 y x = Ok (out, k)
           /\ RollingKalmanFilter.spread_history k
              = if 1 <=? w then [snd out] else []).
Proof.
  split.
  - intros delta r y x k0 Hinit.
    unfold KalmanFilter.init, KalmanFilter.reset, bind in Hinit.
    destruct (py_truediv _ _); [ | discriminate ].
    injection Hinit as <-.
    unfold KalmanFilter.update; cbn [fst KalmanFilter.beta].
    exact (first_pair y x).
  - intros w delta r y x k0 Hinit. cbv zeta.
    destruct (rkf_reset_fields _ Hinit) as (W & D & R0 & B & P0 & V & Hh).
    cbn [RollingKalmanFilter.window] in W.
    unfold RollingKalmanFilter.update.
    rewrite B, Hh, W. cbn [app length].
    pose proof (first_pair y x) as Hp. cbv zeta in Hp.
    change (@none float Num_float) with 1%float.
    change (@nsub float Num_float) with PrimFloat.sub.
    destruct (Z.gtb_spec (Z.of_nat 1) w) as [Hgt | Hle].
    + match goal with
      | |- context [RollingKalmanFilter.reset ?s] =>
          rewrite (@rkf_reset_congr _ _ s k0 (eq_sym W) eq_refl eq_refl)
      end.
      rewrite (rkf_reset_idem _ Hinit). cbn [bind].
      exists k0. rewrite Hp. split; [ reflexivity | ].
      rewrite Hh. destruct (Z.leb_spec 1 w); [ lia | reflexivity ].
    + eexists. rewrite Hp. split; [ reflexivity | ].
      cbn [RollingKalmanFilter.spread_history].
      destruct (Z.leb_spec 1 w); [ | lia ].
      apply (f_equal snd) in Hp. cbn [snd] in Hp. rewrite Hp.
      reflexivity.
Qed.

(** The default estimators at [(y, x) = (7, 3)]. *)
Lemma first_update_returns_observation_witness :
  (exists k0 : KalmanFilter.t float,
      KalmanFilter.init 0.01%float 0.001%float = Ok k0
      /\ fst (KalmanFilter.update k0 7%float 3%float) = (0, 7)%float)
  /\ (exists k0 k : RollingKalmanFilter.t float,
         RollingKalmanFilter.init 500 0.00001%float 0.001%float = Ok k0
         /\ RollingKalmanFilter.update k0 7%float 3%float
            = Ok ((0, 7)%float, k)
         /\ RollingKalmanFilter.spread_history k = [7%float]).
Proof.
  split.
  - eexists. split; [ vm_compute; reflexivity | ].
    exact (proj1 first_update_returns_observation
                 0.01%float 0.001%float 7%float 3%float _ eq_refl).
  - destruct (proj2 first_update_returns_observation
                    500 0.00001%float 0.001%float 7%float 3%float _ eq_refl)
      as (k & E & Hh).
    eexists. exists k. split; [ vm_compute; reflexivity | ].
    split; [ exact E | exact Hh ].
Defined.

(** ** Construction *)

(** X5.  In exact arithmetic both constructors raise [ZeroDivisionError]
    exactly when [delta = 1] (from [delta / (1 - delta)]) and otherwise
    return an estimator with zero [beta], identity covariance, [Ve = R] and
    (windowed) an empty buffer; in binary64 [delta = 1.0] raises whatever
    [R] and [window] are. *)
Theorem constructors_raise_exactly_at_delta_one :
  (forall delta r : R,
      (KalmanFilter.init delta r = Raise ZeroDivisionError <-> delta = 1%R)
      /\ (delta <> 1%R ->
          exists k : KalmanFilter.t R,
            KalmanFilter.init delta r = Ok k
            /\ KalmanFilter.beta k = np_zeros2
            /\ KalmanFilter.P k = np_eye2
            /\ KalmanFilter.Ve k = r /\ KalmanFilter.R k = r))
  /\ (forall (w : Z) (delta r : R),
         (RollingKalmanFilter.init w delta r = Raise ZeroDivisionError
          <-> delta = 1%R)
         /\ (delta <> 1%R ->
             exists k : RollingKalmanFilter.t R,
               RollingKalmanFilter.init w delta r = Ok k
               /\ RollingKalmanFilter.beta k = np_zeros2
               /\ RollingKalmanFilter.P k = np_eye2
               /\ RollingKalmanFilter.Ve k = r
               /\ RollingKalmanFilter.window k = w
               /\ RollingKalmanFilter.spread_history k = []))
  /\ (forall r : float,
         KalmanFilter.init 1%float r = Raise ZeroDivisionError)
  /\ (forall (w : Z) (r : float),
         RollingKalmanFilter.init w 1%float r = Raise ZeroDivisionError).
Proof.
  split; [ | split; [ | split ] ].
  - intros delta r.
    unfold KalmanFilter.init, KalmanFilter.reset, py_truediv; cbn.
    unfold Reqb.
    destruct (Req_dec_T (1 - delta) 0) as [E | NE]; cbn.
    + split; [ split; [ intros _; lra | reflexivity ] | ].
      intros Hd; exfalso; lra.
    + split; [ split; [ discriminate | intros Hd; exfalso; lra ] | ].
      intros _. eexists; repeat split.
  - intros w delta r.
    unfold RollingKalmanFilter.init, RollingKalmanFilter.reset, py_truediv;
      cbn.
    unfold Reqb.
    destruct (Req_dec_T (1 - delta) 0) as [E | NE]; cbn.
    + split; [ split; [ intros _; lra | reflexivity ] | ].
      intros Hd; exfalso; lra.
    + split; [ split; [ discriminate | intros Hd; exfalso; lra ] | ].
      intros _. eexists; repeat split.
  - intros r. reflexivity.
  - intros w r. reflexivity.
Qed.

(** ** Step 1 of the backtest with the continuous estimator *)

Section EstimateFacts.
Context {T : Type} `{Num T}.

Lemma kf_run_length (obs : list (T * T)) :
  forall k : KalmanFilter.t T,
    length (fst (KalmanFilter.run k obs)) = length obs.
Proof.
  induction obs as [ | [y x] rest IH ]; intros k; cbn [KalmanFilter.run].
  - reflexivity.
  - destruct (KalmanFilter.update k y x) as [o k1].
    specialize (IH k1).
    destruct (KalmanFilter.run k1 rest) as [os k2].
    cbn [fst length] in *. lia.
Qed.

Lemma estimate_kf_rows (df : list (Z * (T * T))) :
  forall k : KalmanFilter.t T,
  exists l : list (T * T),
    estimate k df = Ok l
    /\ length l = length df
    /\ forall (n : nat) (row : T * T),
        nth_error l n = Some row ->
        fst row
        = snd (last (fst (KalmanFilter.run k (firstn (S n) (map snd df))))
                    (nzero, nzero))
        /\ snd row
           = snd (KalmanFilter.beta
                    (snd (KalmanFilter.run k
                            (firstn (S n) (map snd df))))).
Proof.
  induction df as [ | [ts [y x]] rest IH ]; intros k.
  - exists []. cbn. repeat split; try reflexivity.
    + destruct n; discriminate.
    + destruct n; discriminate.
  - cbn [estimate km_update km_beta KalmanFilter_model bind].
    destruct (IH (snd (KalmanFilter.update k y x))) as (l & El & Ll & Hl).
    rewrite El. cbn [bind].
    eexists; split; [ reflexivity | ].
    split; [ cbn [length]; lia | ].
    intros n row Hn.
    cbn [map snd firstn KalmanFilter.run].
    destruct (KalmanFilter.update k y x) as [out k1] eqn:Eu.
    cbn [snd fst] in *.
    destruct n as [ | m ].
    + cbn in Hn. injection Hn as <-. cbn. split; reflexivity.
    + cbn [nth_error] in Hn.
      destruct (Hl m row Hn) as [Hs Hb].
      assert (Hm : (m < length rest)%nat).
      { rewrite <- Ll. apply nth_error_Some. congruence. }
      pose proof (kf_run_length (firstn (S m) (map snd rest)) k1) as Hlen.
      rewrite length_firstn, length_map in Hlen.
      destruct (KalmanFilter.run k1 (firstn (S m) (map snd rest)))
        as [os k2].
      cbn [fst snd] in *.
      destruct os as [ | o os' ]; [ cbn [length] in Hlen; lia | ].
      split; assumption.
Qed.
End EstimateFacts.

(** X6.  Step 1 of the backtest with the continuous estimator never fails
    and yields one [(spread, hedge_ratio)] per row: the spread of row [n]
    is the residual returned by the update on that row, and the hedge ratio
    is [beta[1]] after that same update (it already includes the row's own
    observation). *)
Theorem estimate_kalman_filter_rows :
  forall (T : Type) (N : Num T) (k : KalmanFilter.t T)
         (df : list (Z * (T * T))),
  exists l : list (T * T),
    estimate k df = Ok l
    /\ length l = length df
    /\ forall (n : nat) (row : T * T),
        nth_error l n = Some row ->
        fst row
        = snd (last (fst (KalmanFilter.run k (firstn (S n) (map snd df))))
                    (nzero, nzero))
        /\ snd row
           = snd (KalmanFilter.beta
                    (snd (KalmanFilter.run k
                            (firstn (S n) (map snd df))))).
Proof. intros T N k df. apply estimate_kf_rows. Qed.

(** ** The shape of the trade log *)

Section LogFacts.
Context {T : Type} `{Num T}.
Variables z_entry z_exit trade_notional : T.

Lemma fold_step_invariant (Inv : Loop T -> Prop) :
  (forall st row, Inv st ->
                  Inv (step z_entry z_exit trade_notional st row)) ->
  forall (rows : list (Row.t T)) (st : Loop T),
    Inv st -> Inv (fold_left (step z_entry z_exit trade_notional) rows st).
Proof.
  intros Hstep. induction rows as [ | row rows IH ]; intros st Hst.
  - exact Hst.
  - cbn [fold_left]. apply IH, Hstep, Hst.
Qed.

(** The seven outcomes of the [if]/[elif] chain, by what they log. *)
Lemma trade_outcome (st : Loop T) (row : Row.t T) :
  position st = 0 \/ position st = 1 \/ position st = -1 ->
  let st1 := fst (trade z_entry z_exit trade_notional st row) in
  let fl := snd (trade z_entry z_exit trade_notional st row) in
  (* entry *)
  (position st = 0 /\ (position st1 = 1 \/ position st1 = -1)
   /\ entry_flag fl = true /\ exit_flag fl = false
   /\ unrealized_pnl fl = nzero /\ realized_pnl fl = nzero
   /\ equity st1 = equity st)
  (* exit *)
  \/ (position st <> 0 /\ position st1 = 0
      /\ entry_flag fl = false /\ exit_flag fl = true
      /\ unrealized_pnl fl = nzero
      /\ equity st1 = nadd (equity st) (realized_pnl fl))
  (* flat, no entry *)
  \/ (position st = 0 /\ position st1 = 0
      /\ entry_flag fl = false /\ exit_flag fl = false
      /\ unrealized_pnl fl = nzero /\ realized_pnl fl = nzero
      /\ equity st1 = equity st)
  (* holding *)
  \/ (position st <> 0 /\ position st1 = position st
      /\ entry_flag fl = false /\ exit_flag fl = false
      /\ realized_pnl fl = nzero
      /\ equity st1 = equity st).
Proof.
  intros Hpos. unfold trade.
  destruct Hpos as [E | [E | E]]; rewrite E; cbn [Z.eqb Pos.eqb].
  - destruct (nltb (Row.zscore row) (nopp z_entry)).
    + left. cbn. repeat split; auto.
    + destruct (nltb z_entry (Row.zscore row)).
      * left. cbn. repeat split; auto.
      * right; right; left. cbn. repeat split; auto.
  - destruct (nltb (Row.zscore row) z_exit).
    + right; left. cbn. repeat split; auto. discriminate.
    + right; right; right. cbn. repeat split; auto. discriminate.
  - destruct (nltb (nopp z_exit) (Row.zscore row)).
    + right; left. cbn. repeat split; auto. discriminate.
    + right; right; right. cbn. repeat split; auto. discriminate.
Qed.

Lemma signals_snoc (log : list (TradeLogEntry.t T)) (e : TradeLogEntry.t T) :
  signals (log ++ [e])
  = signals log ++ match signal_of e with Some s => [s] | None => [] end.
Proof.
  induction log as [ | a log IH ]; cbn [app signals].
  - destruct (signal_of e); reflexivity.
  - rewrite IH. destruct (signal_of a); reflexivity.
Qed.

Lemma alternates_snoc (l : list bool) (s : bool) :
  forall next : bool,
    alternates next (l ++ [s])
    = match alternates next l with
      | Some n => if Bool.eqb s n then Some (negb n) else None
      | None => None
      end.
Proof.
  induction l as [ | a l IH ]; intros next; cbn [app alternates].
  - destruct (Bool.eqb s next); reflexivity.
  - destruct (Bool.eqb a next); [ apply IH | reflexivity ].
Qed.

Lemma running_equity_snoc (log : list (TradeLogEntry.t T))
      (e : TradeLogEntry.t T) :
  forall acc : T,
    running_equity acc (log ++ [e])
    = running_equity acc log ++ [book (fold_left book log acc) e].
Proof.
  induction log as [ | a log IH ]; intros acc; cbn [app running_equity].
  - reflexivity.
  - rewrite IH. reflexivity.
Qed.

(** The three invariants of the trading loop, together. *)
Lemma step_keeps_log_shape (initial_capital : T) (st : Loop T)
      (row : Row.t T) :
  let Inv := fun s : Loop T =>
    (position s = 0 \/ position s = 1 \/ position s = -1)
    /\ Forall entry_wellformed (trade_log s)
    /\ alternates true (signals (trade_log s)) = Some (position s =? 0)
    /\ map (@TradeLogEntry.equity T) (trade_log s)
       = running_equity initial_capital (trade_log s)
    /\ equity s = fold_left book (trade_log s) initial_capital in
  Inv st -> Inv (step z_entry z_exit trade_notional st row).
Proof.
  intros Inv (Hpos & Hwf & Halt & Hrun & Heq).
  destruct (skipped row) eqn:Esk.
  - rewrite step_skipped by exact Esk. repeat split; assumption.
  - rewrite step_eligible by exact Esk.
    pose proof (trade_outcome st row Hpos) as Hout. cbv zeta in Hout.
    set (st1 := fst (trade z_entry z_exit trade_notional st row)) in *.
    set (fl := snd (trade z_entry z_exit trade_notional st row)) in *.
    unfold Inv.
    cbn [position trade_log equity].
    rewrite signals_snoc.
    rewrite map_app, running_equity_snoc, fold_left_app, <- Hrun, <- Heq.
    cbn [map fold_left].
    unfold signal_of, book, log_entry.
    cbn [TradeLogEntry.entry_signal TradeLogEntry.exit_signal
         TradeLogEntry.equity TradeLogEntry.realized_pnl].
    rewrite Forall_app.
    unfold entry_wellformed.
    cbn [TradeLogEntry.entry_signal TradeLogEntry.exit_signal
         TradeLogEntry.position TradeLogEntry.unrealized_pnl
         TradeLogEntry.realized_pnl].
    destruct Hout as
      [ (P0 & P1 & Hen & Hex & Hun & Hre & Hq)
      | [ (P0 & P1 & Hen & Hex & Hun & Hq)
        | [ (P0 & P1 & Hen & Hex & Hun & Hre & Hq)
          | (P0 & P1 & Hen & Hex & Hre & Hq) ] ] ];
      rewrite Hen, Hex; cbn [andb].
    + rewrite alternates_snoc, Halt, P0. cbn [Z.eqb Bool.eqb negb].
      rewrite Hq.
      split; [ lia | ].
      split; [ split; [ exact Hwf | ] | ].
      * constructor; [ | constructor ].
        cbn. rewrite ?Hun, ?Hre.
        repeat split; auto; try lia; try discriminate; try congruence.
      * split; [ destruct P1 as [-> | ->]; reflexivity | ].
        split; reflexivity.
    + assert (E0 : (position st =? 0) = false) by (apply Z.eqb_neq; exact P0).
      rewrite alternates_snoc, Halt, E0, P1. cbn [Z.eqb Bool.eqb negb].
      rewrite Hq.
      split; [ lia | ].
      split; [ split; [ exact Hwf | ] | ].
      * constructor; [ | constructor ].
        cbn. rewrite ?Hun, ?Hre.
        repeat split; auto; try lia; try discriminate; try congruence.
      * split; [ reflexivity | ]. split; reflexivity.
    + rewrite app_nil_r, Halt, P0, P1. cbn [Z.eqb].
      rewrite Hq.
      split; [ lia | ].
      split; [ split; [ exact Hwf | ] | ].
      * constructor; [ | constructor ].
        cbn. rewrite ?Hun, ?Hre.
        repeat split; auto; try lia; try discriminate; try congruence.
      * split; [ reflexivity | ]. split; reflexivity.
    + rewrite app_nil_r, Halt, P1.
      rewrite Hq.
      split; [ exact Hpos | ].
      split; [ split; [ exact Hwf | ] | ].
      * constructor; [ | constructor ].
        cbn. rewrite ?Hun, ?Hre.
        repeat split; auto; try lia; try discriminate; try congruence.
      * split; [ reflexivity | ]. split; reflexivity.
Qed.
End LogFacts.

Section SimulateShape.
Context {T : Type} `{Num T}.

Lemma simulate_log_shape
      (z_entry z_exit initial_capital trade_notional : T)
      (df : list (Row.t T)) :
  let s := simulate z_entry z_exit initial_capital trade_notional df in
  (position s = 0 \/ position s = 1 \/ position s = -1)
  /\ Forall entry_wellformed (trade_log s)
  /\ alternates true (signals (trade_log s)) = Some (position s =? 0)
  /\ map (@TradeLogEntry.equity T) (trade_log s)
     = running_equity initial_capital (trade_log s)
  /\ equity s = fold_left book (trade_log s) initial_capital.
Proof.
  unfold simulate.
  apply (fold_step_invariant z_entry z_exit trade_notional
           (fun s : Loop T =>
              (position s = 0 \/ position s = 1 \/ position s = -1)
              /\ Forall entry_wellformed (trade_log s)
              /\ alternates true (signals (trade_log s))
                 = Some (position s =? 0)
              /\ map (@TradeLogEntry.equity T) (trade_log s)
                 = running_equity initial_capital (trade_log s)
              /\ equity s = fold_left book (trade_log s) initial_capital)).
  - intros st row. apply step_keeps_log_shape.
  - cbn. repeat split; auto.
Qed.
End SimulateShape.

(** X7.  Every entry of the trade log is well formed: its position is 0, 1
    or -1; at most one of [entry_signal] and [exit_signal] is set; an entry
    row is logged in position with no unrealized PnL; an exit row is logged
    flat; realized PnL is zero on every row that is not an exit; and a row
    logged flat carries no unrealized PnL. *)
Theorem trade_log_entries_wellformed :
  forall (T : Type) (N : Num T)
         (z_entry z_exit initial_capital trade_notional : T)
         (df : list (Row.t T)),
    Forall entry_wellformed
           (trade_log
              (simulate z_entry z_exit initial_capital trade_notional df)).
Proof.
  intros T N z_entry z_exit ic tn df.
  exact (proj1 (proj2 (simulate_log_shape z_entry z_exit ic tn df))).
Qed.

(** X8.  Along the trade log entry signals and exit signals alternate,
    starting with an entry: no position is entered twice without an exit in
    between and nothing is exited that was not entered.  The run ends flat
    exactly when the next signal due is an entry. *)
Theorem entries_and_exits_alternate :
  forall (T : Type) (N : Num T)
         (z_entry z_exit initial_capital trade_notional : T)
         (df : list (Row.t T)),
    let s := simulate z_entry z_exit initial_capital trade_notional df in
    alternates true (signals (trade_log s)) = Some (position s =? 0).
Proof.
  intros T N z_entry z_exit ic tn df.
  exact (proj1 (proj2 (proj2 (simulate_log_shape z_entry z_exit ic tn df)))).
Qed.

(** X9.  Equity moves only at exits, by the realized PnL logged there: the
    equity column of the log is the starting capital plus, in log order,
    the realized PnL of the exit rows so far (the same additions in the
    same order, so the equality is exact in binary64 too), and the final
    equity is the last such sum. *)
Theorem equity_is_booked_at_exits :
  forall (T : Type) (N : Num T)
         (z_entry z_exit initial_capital trade_notional : T)
         (df : list (Row.t T)),
    let s := simulate z_entry z_exit initial_capital trade_notional df in
    map (@TradeLogEntry.equity T) (trade_log s)
    = running_equity initial_capital (trade_log s)
    /\ equity s = fold_left book (trade_log s) initial_capital.
Proof.
  intros T N z_entry z_exit ic tn df.
  exact (proj2 (proj2 (proj2 (simulate_log_shape z_entry z_exit ic tn df)))).
Qed.

(** X10.  Deleting from the frame, after its first row, every row that
    fails the eligibility test of Step 3 changes nothing the trading loop
    computes: the final position, equity, entry data and the whole log are
    the same. *)
Theorem simulate_ignores_skipped_rows :
  forall (T : Type) (N : Num T)
         (z_entry z_exit initial_capital trade_notional : T)
         (first : Row.t T) (rest : list (Row.t T)),
    simulate z_entry z_exit initial_capital trade_notional (first :: rest)
    = simulate z_entry z_exit initial_capital trade_notional
               (first :: filter eligible rest).
Proof.
  intros T N z_entry z_exit ic tn first rest. unfold simulate. cbn [tl].
  apply fold_step_filter.
Qed.

(** ** The evaluator on what the backtest returns *)

Lemma evaluate_nonempty (log : list (TradeLogEntry.t float)) (ie : float) :
  log <> [] ->
  exists m : Evaluator.Metrics,
    Evaluator.evaluate log ie = Ok m
    /\ Evaluator.Number_of_Trades m = length log.
Proof.
  destruct log as [ | r rest ]; [ congruence | ]. intros _.
  unfold Evaluator.evaluate.
  cbn [map Evaluator.iloc_first Evaluator.iloc_last bind].
  eexists; split; reflexivity.
Qed.

(** X11.  What the evaluator reports as Number of Trades for a backtest is
    the number of eligible rows after the first one (the number of logged
    steps), whether or not any of them entered or left a position. *)
Theorem number_of_trades_counts_logged_rows :
  forall (z_entry z_exit initial_capital trade_notional initial_equity : float)
         (df : list (Row.t float)),
    filter eligible (tl df) <> [] ->
    exists m : Evaluator.Metrics,
      Evaluator.evaluate
        (trade_log
           (simulate z_entry z_exit initial_capital trade_notional df))
        initial_equity
      = Ok m
      /\ Evaluator.Number_of_Trades m = length (filter eligible (tl df)).
Proof.
  intros z_entry z_exit ic tn ie df Hne.
  pose proof (fold_step_log z_entry z_exit tn (tl df) (loop_init ic)) as Hlog.
  apply (f_equal (@length _)) in Hlog.
  rewrite length_app, !length_map in Hlog. cbn in Hlog.
  fold (simulate z_entry z_exit ic tn df) in Hlog.
  destruct (@evaluate_nonempty
              (trade_log (simulate z_entry z_exit ic tn df)) ie)
    as (m & Em & Nm).
  - intros E. rewrite E in Hlog. cbn in Hlog.
    destruct (filter eligible (tl df)); [ congruence | discriminate ].
  - exists m. split; [ exact Em | congruence ].
Qed.

Lemma number_of_trades_counts_logged_rows_witness :
  let df :=
    [ Row.mk 10 101%float 100%float 0.1%float 1%float 0.3%float;
      Row.mk 11 102%float 100%float 0.2%float 1%float 0.4%float;
      Row.mk 12 102%float 100%float 0.2%float 0.01%float 0.4%float;
      Row.mk 13 103%float 100%float 0.2%float 1%float 0.4%float ] in
  filter eligible (tl df) <> []
  /\ exists m : Evaluator.Metrics,
       Evaluator.evaluate
         (trade_log (simulate 0.8%float 0.8%float 100000%float 100000%float df))
         1%float
       = Ok m
       /\ Evaluator.Number_of_Trades m = 2%nat.
Proof.
  cbv zeta.
  assert (Hne : filter eligible
                  (tl [ Row.mk 10 101%float 100%float 0.1%float 1%float
                               0.3%float;
                        Row.mk 11 102%float 100%float 0.2%float 1%float
                               0.4%float;
                        Row.mk 12 102%float 100%float 0.2%float 0.01%float
                               0.4%float;
                        Row.mk 13 103%float 100%float 0.2%float 1%float
                               0.4%float ]) <> [])
    by (cbn; discriminate).
  split; [ exact Hne | ].
  destruct (@number_of_trades_counts_logged_rows 0.8%float 0.8%float
              100000%float 100000%float 1%float _ Hne) as (m & Em & Nm).
  exists m. split; [ exact Em | exact Nm ].
Defined.

(** X12.  [main] cannot fail in the backtest or the evaluator, whatever the
    merged frame: the default continuous estimator is built, Step 1 never
    raises, and the one failing call, the evaluator on an empty log, is
    kept away by the early return.  It returns early exactly when the trade
    log is empty and otherwise the metrics of the log. *)
Theorem main_never_raises :
  forall (rolling_mean rolling_std : nat -> list float -> list float)
         (df : list (Z * (float * float))),
  exists log : list (TradeLogEntry.t float),
    run_kalman_backtest rolling_mean rolling_std (M := KalmanFilter.t float)
                        df 0.8%float 0.8%float 100000%float 100000%float
    = Ok log
    /\ match log with
       | [] => main rolling_mean rolling_std df = Ok None
       | _ :: _ =>
           exists m : Evaluator.Metrics,
             main rolling_mean rolling_std df = Ok (Some m)
             /\ Evaluator.evaluate log 1%float = Ok m
             /\ Evaluator.Number_of_Trades m = length log
       end.
Proof.
  intros rm rs df.
  unfold main, run_kalman_backtest, prepared.
  assert (Hnew : km_new (T:=float) (M:=KalmanFilter.t float)
                 = Ok (KalmanFilter.mk (decimal 1 2) (decimal 1 3)
                         np_zeros2 np_eye2
                         (s_mul_mat
                            (ndiv (decimal 1 2) (nsub none (decimal 1 2)))
                            np_eye2)
                         (decimal 1 3)))
    by reflexivity.
  rewrite Hnew. cbn [bind].
  match goal with
  | |- context [estimate ?k df] =>
      destruct (estimate_kf_rows df k) as (l & El & _)
  end.
  rewrite El. cbn [bind].
  eexists; split; [ reflexivity | ].
  match goal with
  | |- match ?log with _ => _ end =>
      destruct log as [ | e rest ] eqn:Elog
  end.
  - reflexivity.
  - destruct (@evaluate_nonempty (e :: rest) 1%float) as (m & Em & Nm);
      [ discriminate | ].
    exists m. rewrite Em. cbn [bind]. repeat split; assumption.
Qed.

(** ** [preprocess_data] *)

Section PreprocessFacts.
Context {A : Type}.
Implicit Types (df : list (Z * A)) (r : Z * A).

Lemma boolean_mask_keep_first df :
  forall seen : list Z,
    boolean_mask (map negb (duplicated_from seen (map fst df))) df
    = keep_first_from seen df.
Proof.
  unfold boolean_mask.
  induction df as [ | r rest IH ]; intros seen.
  - reflexivity.
  - cbn [map duplicated_from combine filter keep_first_from fst].
    destruct (existsb (Z.eqb (fst r)) seen); cbn [negb map snd];
      rewrite IH; reflexivity.
Qed.

Lemma existsb_eqb_In (k : Z) (seen : list Z) :
  existsb (Z.eqb k) seen = true <-> In k seen.
Proof.
  rewrite existsb_exists. split.
  - intros (x & Hx & E). apply Z.eqb_eq in E. subst. exact Hx.
  - intros Hk. exists k. split; [ exact Hk | apply Z.eqb_refl ].
Qed.

Lemma keep_first_in df :
  forall (seen : list Z) r,
    In r (keep_first_from seen df)
    <-> ~ In (fst r) seen /\ first_row (fst r) df = Some r.
Proof.
  unfold first_row.
  induction df as [ | s rest IH ]; intros seen r.
  - cbn. split; [ contradiction | intros [_ E]; discriminate ].
  - cbn [keep_first_from find].
    destruct (Z.eqb_spec (fst s) (fst r)) as [Ek | Nk].
    + destruct (existsb (Z.eqb (fst s)) seen) eqn:Es.
      * apply existsb_eqb_In in Es. rewrite IH. cbn [In].
        split.
        -- intros [Hn _]. exfalso. apply Hn. left. exact Ek.
        -- intros [Hn _]. exfalso. apply Hn. rewrite <- Ek. exact Es.
      * assert (Hs : ~ In (fst s) seen).
        { intros Hin. apply existsb_eqb_In in Hin. congruence. }
        cbn [In]. rewrite IH. cbn [In]. split.
        -- intros [E | [Hn _]].
           ++ subst. split; [ exact Hs | reflexivity ].
           ++ exfalso. apply Hn. left. exact Ek.
        -- intros [_ E]. left. congruence.
    + destruct (existsb (Z.eqb (fst s)) seen) eqn:Es.
      * rewrite IH. cbn [In]. split.
        -- intros [Hn E]. split; [ | exact E ].
           intros Hin. apply Hn. right. exact Hin.
        -- intros [Hn E]. split; [ | exact E ].
           intros [E' | Hin]; [ congruence | exact (Hn Hin) ].
      * cbn [In]. rewrite IH. cbn [In]. split.
        -- intros [E | [Hn E]].
           ++ subst. congruence.
           ++ split; [ | exact E ].
              intros Hin. apply Hn. right. exact Hin.
        -- intros [Hn E]. right. split; [ | exact E ].
           intros [E' | Hin]; [ congruence | exact (Hn Hin) ].
Qed.

Lemma keep_first_nodup df :
  forall seen : list Z, NoDup (map fst (keep_first_from seen df)).
Proof.
  induction df as [ | s rest IH ]; intros seen.
  - constructor.
  - cbn [keep_first_from].
    destruct (existsb (Z.eqb (fst s)) seen); [ apply IH | ].
    cbn [map]. constructor; [ | apply IH ].
    intros Hin. apply in_map_iff in Hin. destruct Hin as (r & Er & Hr).
    apply keep_first_in in Hr. destruct Hr as [Hn _].
    apply Hn. left. symmetry. exact Er.
Qed.

Lemma insert_row_perm r (l : list (Z * A)) :
  Permutation (insert_row r l) (r :: l).
Proof.
  induction l as [ | s rest IH ]; cbn [insert_row].
  - apply Permutation_refl.
  - destruct (fst r <=? fst s); [ apply Permutation_refl | ].
    eapply Permutation_trans; [ apply perm_skip, IH | apply perm_swap ].
Qed.

Lemma sort_index_perm (l : list (Z * A)) : Permutation (sort_index l) l.
Proof.
  induction l as [ | r rest IH ]; cbn [sort_index fold_right].
  - apply Permutation_refl.
  - eapply Permutation_trans; [ apply insert_row_perm | ].
    apply perm_skip, IH.
Qed.

Lemma insert_row_increasing r (l : list (Z * A)) :
  index_increasing l -> ~ In (fst r) (map fst l) ->
  index_increasing (insert_row r l).
Proof.
  unfold index_increasing.
  induction l as [ | s rest IH ]; intros Hs Hn; cbn [insert_row].
  - cbn. constructor; constructor.
  - cbn [map] in Hs. apply StronglySorted_inv in Hs. destruct Hs as [Hs Hall].
    destruct (Z.leb_spec (fst r) (fst s)) as [Hle | Hgt].
    + assert (Hlt : fst r < fst s).
      { assert (fst r <> fst s) by (intros E; apply Hn; left; auto). lia. }
      cbn [map]. constructor.
      * constructor; assumption.
      * constructor; [ exact Hlt | ].
        eapply Forall_impl; [ | exact Hall ]. cbn. intros k Hk. lia.
    + cbn [map]. constructor.
      * apply IH; [ exact Hs | ]. intros Hin. apply Hn. right. exact Hin.
      * apply Forall_forall. intros k Hk.
        apply in_map_iff in Hk. destruct Hk as (q & Eq & Hq).
        apply (Permutation_in _ (insert_row_perm r rest)) in Hq.
        destruct Hq as [E | Hq].
        -- subst. lia.
        -- rewrite Forall_forall in Hall. apply Hall.
           subst. apply in_map. exact Hq.
Qed.

Lemma sort_index_increasing (l : list (Z * A)) :
  NoDup (map fst l) -> index_increasing (sort_index l).
Proof.
  induction l as [ | r rest IH ]; intros Hnd; cbn [sort_index fold_right].
  - constructor.
  - cbn [map] in Hnd. apply NoDup_cons_iff in Hnd. destruct Hnd as [Hn Hnd].
    apply insert_row_increasing; [ apply IH, Hnd | ].
    intros Hin. apply Hn.
    apply in_map_iff in Hin. destruct Hin as (q & Eq & Hq).
    apply (Permutation_in _ (sort_index_perm rest)) in Hq.
    rewrite <- Eq. apply in_map. exact Hq.
Qed.

(** On a frame whose index is already strictly increasing nothing is
    dropped and nothing moves. *)
Lemma increasing_not_seen df :
  index_increasing df ->
  forall seen : list Z,
    (forall k, In k seen -> Forall (Z.lt k) (map fst df)) ->
    keep_first_from seen df = df.
Proof.
  unfold index_increasing.
  induction df as [ | s rest IH ]; intros Hs seen Hseen.
  - reflexivity.
  - cbn [map] in Hs. apply StronglySorted_inv in Hs. destruct Hs as [Hs Hall].
    cbn [keep_first_from].
    destruct (existsb (Z.eqb (fst s)) seen) eqn:Es.
    + apply existsb_eqb_In in Es. apply Hseen in Es. cbn [map] in Es.
      apply Forall_inv in Es. lia.
    + f_equal. apply IH; [ exact Hs | ].
      intros k [E | Hk].
      * subst. exact Hall.
      * specialize (Hseen k Hk). cbn [map] in Hseen.
        apply Forall_inv_tail in Hseen. exact Hseen.
Qed.

Lemma sort_index_increasing_id (l : list (Z * A)) :
  index_increasing l -> sort_index l = l.
Proof.
  unfold index_increasing.
  induction l as [ | r rest IH ]; intros Hs; cbn [sort_index fold_right].
  - reflexivity.
  - cbn [map] in Hs. apply StronglySorted_inv in Hs. destruct Hs as [Hs Hall].
    fold (sort_index rest). rewrite (IH Hs).
    destruct rest as [ | s rest' ]; [ reflexivity | ].
    cbn [insert_row]. cbn [map] in Hall. apply Forall_inv in Hall.
    destruct (Z.leb_spec (fst r) (fst s)); [ reflexivity | lia ].
Qed.

Lemma preprocess_data_eq df :
  preprocess_data df = sort_index (keep_first_from [] df).
Proof.
  unfold preprocess_data, index_duplicated.
  rewrite boolean_mask_keep_first. reflexivity.
Qed.
End PreprocessFacts.

(** X13.  The frame returned by [preprocess_data] has a strictly
    increasing index: it is sorted and no index value occurs twice. *)
Theorem preprocess_index_strictly_increasing :
  forall (A : Type) (df : list (Z * A)),
    index_increasing (preprocess_data df).
Proof.
  intros A df. rewrite preprocess_data_eq.
  apply sort_index_increasing, keep_first_nodup.
Qed.

(** X14.  [preprocess_data] keeps, for every index value of the input, the
    first row that carries it, and nothing else: a row is in the result
    exactly when it is the first row of the input with its index value. *)
Theorem preprocess_keeps_first_rows :
  forall (A : Type) (df : list (Z * A)) (r : Z * A),
    In r (preprocess_data df) <-> first_row (fst r) df = Some r.
Proof.
  intros A df r. rewrite preprocess_data_eq. split.
  - intros Hin.
    apply (Permutation_in _ (sort_index_perm (keep_first_from [] df))) in Hin.
    apply keep_first_in in Hin. apply Hin.
  - intros Hf.
    apply (Permutation_in _
             (Permutation_sym (sort_index_perm (keep_first_from [] df)))).
    apply keep_first_in. split; [ intros [] | exact Hf ].
Qed.

(** X15.  A frame whose index is already strictly increasing is returned
    unchanged, so [preprocess_data] is idempotent. *)
Theorem preprocess_idempotent :
  forall (A : Type) (df : list (Z * A)),
    (index_increasing df -> preprocess_data df = df)
    /\ preprocess_data (preprocess_data df) = preprocess_data df.
Proof.
  intros A df.
  assert (Hid : forall l : list (Z * A),
             index_increasing l -> preprocess_data l = l).
  { intros l Hl. rewrite preprocess_data_eq.
    rewrite (increasing_not_seen Hl); [ | intros k [] ].
    apply sort_index_increasing_id, Hl. }
  split; [ apply Hid | ].
  apply Hid. rewrite preprocess_data_eq.
  apply sort_index_increasing, keep_first_nodup.
Qed.

Lemma preprocess_idempotent_witness :
  let df := [(1, 10); (2, 20); (5, 50)] in
  index_increasing df /\ preprocess_data df = df.
Proof.
  cbv zeta.
  assert (Hinc : index_increasing [(1, 10); (2, 20); (5, 50)]).
  { unfold index_increasing. cbn.
    repeat (constructor; [ | repeat (constructor; try lia) ]).
    constructor. }
  split; [ exact Hinc | ].
  exact (proj1 (@preprocess_idempotent Z [(1, 10); (2, 20); (5, 50)]) Hinc).
Defined.

Section SortedUnique.
Context {A : Type}.

Lemma increasing_perm_unique (l1 : list (Z * A)) :
  forall l2 : list (Z * A),
    index_increasing l1 -> index_increasing l2 ->
    Permutation l1 l2 -> l1 = l2.
Proof.
  unfold index_increasing.
  induction l1 as [ | a l1 IH ]; intros l2 H1 H2 Hp.
  - apply Permutation_nil in Hp. subst. reflexivity.
  - destruct l2 as [ | b l2 ].
    + apply Permutation_sym, Permutation_nil in Hp. discriminate.
    + cbn [map] in H1, H2.
      apply StronglySorted_inv in H1. destruct H1 as [H1 A1].
      apply StronglySorted_inv in H2. destruct H2 as [H2 A2].
      rewrite Forall_forall in A1, A2.
      assert (Eab : a = b).
      { assert (Ha : In a (b :: l2))
          by (apply (Permutation_in _ Hp); left; reflexivity).
        assert (Hb : In b (a :: l1))
          by (apply (Permutation_in _ (Permutation_sym Hp)); left;
              reflexivity).
        destruct Ha as [E | Ha]; [ congruence | ].
        destruct Hb as [E | Hb]; [ congruence | ].
        apply (in_map fst) in Ha. apply (in_map fst) in Hb.
        apply A2 in Ha. apply A1 in Hb. lia. }
      subst b. f_equal.
      apply IH; [ exact H1 | exact H2 | ].
      apply Permutation_cons_inv in Hp. exact Hp.
Qed.

Lemma sorted_nodup_increasing (ks : list Z) :
  StronglySorted Z.le ks -> NoDup ks -> StronglySorted Z.lt ks.
Proof.
  induction ks as [ | k ks IH ]; intros Hs Hn.
  - constructor.
  - apply StronglySorted_inv in Hs. destruct Hs as [Hs Hall].
    apply NoDup_cons_iff in Hn. destruct Hn as [Hk Hn].
    constructor; [ apply IH; assumption | ].
    rewrite Forall_forall in *. intros x Hx.
    specialize (Hall x Hx).
    assert (x <> k) by (intros E; subst; contradiction). lia.
Qed.
End SortedUnique.

(** X16.  The result of [preprocess_data] does not depend on how
    [sort_index] sorts: any arrangement of the rows left by
    [df[~df.index.duplicated()]] whose index is in ascending order is the
    frame [preprocess_data] returns. *)
Theorem preprocess_is_the_ascending_arrangement :
  forall (A : Type) (df sorted : list (Z * A)),
    Permutation sorted
      (boolean_mask (map negb (index_duplicated (map fst df))) df) ->
    StronglySorted Z.le (map fst sorted) ->
    sorted = preprocess_data df.
Proof.
  intros A df sorted Hp Hs.
  unfold index_duplicated in Hp. rewrite boolean_mask_keep_first in Hp.
  apply increasing_perm_unique.
  - apply sorted_nodup_increasing; [ exact Hs | ].
    apply (Permutation_NoDup
             (Permutation_map fst (Permutation_sym Hp))).
    apply keep_first_nodup.
  - rewrite preprocess_data_eq.
    apply sort_index_increasing, keep_first_nodup.
  - rewrite preprocess_data_eq.
    eapply Permutation_trans; [ exact Hp | ].
    apply Permutation_sym, sort_index_perm.
Qed.

Lemma preprocess_is_the_ascending_arrangement_witness :
  let df := [(5, 50); (1, 10); (5, 51); (2, 20)] in
  let sorted := [(1, 10); (2, 20); (5, 50)] in
  Permutation sorted
    (boolean_mask (map negb (index_duplicated (map fst df))) df)
  /\ StronglySorted Z.le (map fst sorted)
  /\ sorted = preprocess_data df.
Proof.
  cbv zeta.
  assert (Hp : Permutation [(1, 10); (2, 20); (5, 50)]
                 (boolean_mask
                    (map negb
                       (index_duplicated
                          (map fst [(5, 50); (1, 10); (5, 51); (2, 20)])))
                    [(5, 50); (1, 10); (5, 51); (2, 20)])).
  { cbn.
    apply Permutation_sym.
    apply (Permutation_cons_app [(1, 10); (2, 20)] [] (5, 50)).
    rewrite app_nil_r. apply Permutation_refl. }
  assert (Hs : StronglySorted Z.le (map fst [(1, 10); (2, 20); (5, 50)])).
  { cbn.
    repeat (constructor; [ | repeat (constructor; try lia) ]).
    constructor. }
  split; [ exact Hp | split; [ exact Hs | ] ].
  exact (@preprocess_is_the_ascending_arrangement Z
           [(5, 50); (1, 10); (5, 51); (2, 20)]
           [(1, 10); (2, 20); (5, 50)] Hp Hs).
Defined.

(** ** [MarginAccount] *)

Section MarginFacts.
#[local] Open Scope float_scope.

Lemma py_truediv_float (a b : float) :
  py_truediv a b
  = if PrimFloat.eqb b 0 then Raise ZeroDivisionError else Ok (a / b).
Proof. reflexivity. Qed.

Lemma prim2sf_infinity : Prim2SF infinity = S754_infinity false.
Proof. reflexivity. Qed.

Lemma infinity_not_below (x : float) : PrimFloat.ltb infinity x = false.
Proof.
  rewrite FloatAxioms.ltb_spec, prim2sf_infinity.
  unfold SFltb, SFcompare.
  destruct (Prim2SF x) as [ s | s | | s m e ]; try destruct s; reflexivity.
Qed.

Lemma nan_quotient_not_below (e m x : float) :
  Prim2SF m = S754_nan ->
  PrimFloat.eqb m 0 = false /\ PrimFloat.ltb (e / m) x = false.
Proof.
  intros Hm. split.
  - rewrite FloatAxioms.eqb_spec, Hm. reflexivity.
  - rewrite FloatAxioms.ltb_spec, FloatAxioms.div_spec, Hm.
    unfold SF64div, SFdiv.
    destruct (Prim2SF e) as [ s | s | | s me ee ]; reflexivity.
Qed.

Lemma zero_is_zero (m : float) (s : bool) :
  Prim2SF m = S754_zero s -> PrimFloat.eqb m 0 = true.
Proof.
  intros Hm. rewrite FloatAxioms.eqb_spec, Hm, prim2sf_zero. reflexivity.
Qed.

(** The margin of an account without positions, [0/l + 0/l], is a zero or
    NaN. *)
Lemma flat_margin (l : float) :
  PrimFloat.eqb l 0 = false ->
  (exists s, Prim2SF (0 / l + 0 / l) = S754_zero s)
  \/ Prim2SF (0 / l + 0 / l) = S754_nan.
Proof.
  rewrite FloatAxioms.eqb_spec, FloatAxioms.add_spec, FloatAxioms.div_spec,
    prim2sf_zero.
  unfold SF64add, SF64div, SFdiv, SFadd, SFeqb, SFcompare.
  destruct (Prim2SF l) as [ s | s | | s m e ]; try destruct s; cbn;
    intros Hl; try discriminate;
    first [ right; reflexivity | left; eexists; reflexivity ].
Qed.
End MarginFacts.

(** X17.  The three margin methods raise [ZeroDivisionError] exactly when
    [leverage] is zero.  With any other leverage they return: the test
    [margin_required == 0] in [margin_ratio] is the very condition under
    which its own division would raise. *)
Theorem margin_methods_raise_exactly_at_zero_leverage :
  forall (self : MarginAccount.t) (mp mf : float),
    (PrimFloat.eqb (MarginAccount.leverage self) 0%float = true ->
     MarginAccount.margin_required self = Raise ZeroDivisionError
     /\ MarginAccount.margin_ratio self mp mf = Raise ZeroDivisionError
     /\ MarginAccount.check_liquidation self mp mf
        = Raise ZeroDivisionError)
    /\ (PrimFloat.eqb (MarginAccount.leverage self) 0%float = false ->
        (exists m, MarginAccount.margin_required self = Ok m)
        /\ (exists q, MarginAccount.margin_ratio self mp mf = Ok q)
        /\ (exists b acct,
               MarginAccount.check_liquidation self mp mf = Ok (b, acct))).
Proof.
  intros self mp mf.
  unfold MarginAccount.check_liquidation, MarginAccount.margin_ratio,
    MarginAccount.margin_required.
  rewrite !py_truediv_float.
  split; intros Hl; rewrite Hl; cbn [bind].
  - repeat split.
  - split; [ eexists; reflexivity | ].
    rewrite py_truediv_float.
    match goal with
    | |- context [PrimFloat.eqb ?m 0%float] =>
        destruct (PrimFloat.eqb m 0%float)
    end; cbn [bind].
    + split; [ eexists; reflexivity | ].
      match goal with
      | |- context [if ?c then _ else _] => destruct c
      end; eexists; eexists; reflexivity.
    + split; [ eexists; reflexivity | ].
      match goal with
      | |- context [if ?c then _ else _] => destruct c
      end; eexists; eexists; reflexivity.
Qed.

Lemma margin_methods_raise_exactly_at_zero_leverage_witness :
  PrimFloat.eqb
    (MarginAccount.leverage
       (MarginAccount.init 100000%float 0%float 0.25%float)) 0%float = true
  /\ MarginAccount.check_liquidation
       (MarginAccount.init 100000%float 0%float 0.25%float)
       100%float 101%float
     = Raise ZeroDivisionError.
Proof.
  split; [ reflexivity | ].
  exact (proj2 (proj2
                  (proj1 (margin_methods_raise_exactly_at_zero_leverage
                            (MarginAccount.init 100000%float 0%float
                                                0.25%float)
                            100%float 101%float)
                         eq_refl))).
Defined.

(** X18.  [check_liquidation] only ever sets the [liquidated] flag: after a
    call the flag is the old flag or the answer returned, and cash,
    positions, leverage and maintenance ratio are untouched.  A liquidated
    account stays liquidated. *)
Theorem liquidated_flag_is_sticky :
  forall (self acct : MarginAccount.t) (mp mf : float) (b : bool),
    MarginAccount.check_liquidation self mp mf = Ok (b, acct) ->
    MarginAccount.liquidated acct = MarginAccount.liquidated self || b
    /\ MarginAccount.cash acct = MarginAccount.cash self
    /\ MarginAccount.perp acct = MarginAccount.perp self
    /\ MarginAccount.future acct = MarginAccount.future self
    /\ MarginAccount.leverage acct = MarginAccount.leverage self
    /\ MarginAccount.maintenance_margin_ratio acct
       = MarginAccount.maintenance_margin_ratio self.
Proof.
  intros self acct mp mf b.
  unfold MarginAccount.check_liquidation.
  destruct (MarginAccount.margin_ratio self mp mf) as [q | e];
    cbn [bind]; [ | discriminate ].
  destruct (PrimFloat.ltb q (MarginAccount.maintenance_margin_ratio self));
    intros E; injection E as <- <-; cbn.
  - rewrite orb_true_r. repeat split.
  - rewrite orb_false_r. repeat split.
Qed.

Lemma liquidated_flag_is_sticky_witness :
  let self :=
    MarginAccount.mk 1000%float
      (MarginAccount.mkPosition 2%float 30000%float)
      (MarginAccount.mkPosition (-2)%float 30100%float)
      10%float 0.25%float false in
  let acct :=
    MarginAccount.mk 1000%float
      (MarginAccount.mkPosition 2%float 30000%float)
      (MarginAccount.mkPosition (-2)%float 30100%float)
      10%float 0.25%float true in
  MarginAccount.check_liquidation self 29000%float 29500%float
  = Ok (true, acct)
  /\ MarginAccount.liquidated acct = MarginAccount.liquidated self || true.
Proof.
  cbv zeta. split; [ reflexivity | ].
  exact (proj1 (@liquidated_flag_is_sticky
                  (MarginAccount.mk 1000%float
                     (MarginAccount.mkPosition 2%float 30000%float)
                     (MarginAccount.mkPosition (-2)%float 30100%float)
                     10%float 0.25%float false)
                  (MarginAccount.mk 1000%float
                     (MarginAccount.mkPosition 2%float 30000%float)
                     (MarginAccount.mkPosition (-2)%float 30100%float)
                     10%float 0.25%float true)
                  29000%float 29500%float true eq_refl)).
Defined.

(** X19.  An account as the constructor leaves it (no positions) is never
    liquidated, whatever its cash, its maintenance ratio, the market prices
    and its non-zero leverage: the call answers [False] and leaves the
    account as it was. *)
Theorem account_without_positions_is_never_liquidated :
  forall (initial_cash leverage maintenance_margin_ratio mp mf : float),
    PrimFloat.eqb leverage 0%float = false ->
    MarginAccount.check_liquidation
      (MarginAccount.init initial_cash leverage maintenance_margin_ratio)
      mp mf
    = Ok (false,
          MarginAccount.init initial_cash leverage maintenance_margin_ratio).
Proof.
  intros cash0 l mmr mp mf Hl.
  unfold MarginAccount.check_liquidation, MarginAccount.margin_ratio,
    MarginAccount.margin_required, MarginAccount.init.
  cbn [MarginAccount.perp MarginAccount.future MarginAccount.quantity
       MarginAccount.entry_price MarginAccount.leverage
       MarginAccount.cash MarginAccount.maintenance_margin_ratio].
  change (PrimFloat.abs (0 * 0))%float with 0%float.
  rewrite !py_truediv_float, Hl. cbn [bind].
  destruct (@flat_margin l Hl) as [[s Hz] | Hn].
  - rewrite (@zero_is_zero _ s Hz). cbn [bind].
    rewrite infinity_not_below. reflexivity.
  - destruct (@nan_quotient_not_below
                (cash0
                 + MarginAccount.update_position
                     (MarginAccount.mk cash0
                        (MarginAccount.mkPosition 0 0)
                        (MarginAccount.mkPosition 0 0) l mmr false)
                     mp mf)%float
                _ mmr Hn) as [Hm Hq].
    rewrite Hm. rewrite py_truediv_float, Hm. cbn [bind].
    rewrite Hq. reflexivity.
Qed.

Lemma account_without_positions_is_never_liquidated_witness :
  PrimFloat.eqb 10%float 0%float = false
  /\ MarginAccount.check_liquidation
       (MarginAccount.init 100000%float 10%float 0.25%float)
       30000%float 30100%float
     = Ok (false, MarginAccount.init 100000%float 10%float 0.25%float).
Proof.
  split; [ reflexivity | ].
  exact (@account_without_positions_is_never_liquidated 100000%float
           10%float 0.25%float 30000%float 30100%float eq_refl).
Defined.

(** ** The backtest as a whole *)

Section BacktestBounds.
Context {T : Type} `{Num T}.
Variables rolling_mean rolling_std : nat -> list T -> list T.

Lemma prepared_rows {M : Type} `{KalmanModel T M}
      (df : list (Z * (T * T))) (rows : list (Row.t T)) :
  prepared rolling_mean rolling_std (M:=M) df = Ok rows ->
  (length rows <= length df)%nat
  /\ incl (map (@Row.name T) rows) (map fst df).
Proof.
  unfold prepared.
  destruct km_new as [model | e]; cbn [bind]; [ | discriminate ].
  destruct (estimate model df) as [est | e]; cbn [bind]; [ | discriminate ].
  intros E; injection E as <-. split.
  - eapply Nat.le_trans; [ apply filter_length_le | ].
    rewrite length_map, length_combine. apply Nat.le_min_l.
  - intros ts Hts. apply in_map_iff in Hts.
    destruct Hts as (row & Ets & Hrow).
    apply filter_In in Hrow. destruct Hrow as [Hrow _].
    apply in_map_iff in Hrow.
    destruct Hrow as ([[ts' [y x]] [[e b] z]] & Erow & Hin).
    apply in_combine_l in Hin.
    subst row. cbn in Ets. subst ts'.
    apply (in_map fst) in Hin. exact Hin.
Qed.
End BacktestBounds.

(** X21.  Whatever the estimator class, a backtest that returns logs at
    most [len(df) - 1] rows, so none at all for an input of at most one
    row, and every timestamp in the log is a timestamp of the input. *)
Theorem backtest_log_within_input :
  forall (T : Type) (N : Num T)
         (rolling_mean rolling_std : nat -> list T -> list T)
         (M : Type) (K : KalmanModel T M)
         (df : list (Z * (T * T)))
         (z_entry z_exit initial_capital trade_notional : T)
         (log : list (TradeLogEntry.t T)),
    run_kalman_backtest rolling_mean rolling_std (M:=M) df
                        z_entry z_exit initial_capital trade_notional
    = Ok log ->
    (length log <= length df - 1)%nat
    /\ incl (map (@TradeLogEntry.timestamp T) log) (map fst df).
Proof.
  intros T N rm rs M K df z_entry z_exit ic tn log.
  unfold run_kalman_backtest.
  destruct (prepared rm rs (M:=M) df) as [rows | e] eqn:Ep;
    cbn [bind]; [ | discriminate ].
  intros E; injection E as <-.
  destruct (prepared_rows rm rs df Ep) as [Hlen Hincl].
  pose proof (fold_step_log z_entry z_exit tn (tl rows) (loop_init ic))
    as Hlog.
  fold (simulate z_entry z_exit ic tn rows) in Hlog.
  change (trade_log (loop_init ic)) with (@nil (TradeLogEntry.t T)) in Hlog.
  cbn [app map] in Hlog.
  split.
  - apply (f_equal (@length _)) in Hlog. rewrite !length_map in Hlog.
    rewrite Hlog.
    eapply Nat.le_trans; [ apply filter_length_le | ].
    destruct rows as [ | r rest ]; cbn [tl length] in *; lia.
  - intros ts Hts.
    assert (Hkeys : map (@TradeLogEntry.timestamp T)
                        (trade_log (simulate z_entry z_exit ic tn rows))
                    = map (@Row.name T) (filter eligible (tl rows))).
    { apply (f_equal (map (fun k => fst (fst (fst k))))) in Hlog.
      rewrite !map_map in Hlog. exact Hlog. }
    rewrite Hkeys in Hts. apply Hincl.
    apply in_map_iff in Hts. destruct Hts as (row & Ets & Hrow).
    apply filter_In in Hrow. destruct Hrow as [Hrow _].
    subst ts. apply in_map.
    destruct rows as [ | r rest ]; [ contradiction | right; exact Hrow ].
Qed.

Lemma backtest_log_within_input_witness :
  let df := [(1, (101%float, 100%float)); (2, (102.5%float, 101%float))] in
  let no_roll := fun (_ : nat) (s : list float) => s in
  exists log : list (TradeLogEntry.t float),
    run_kalman_backtest no_roll no_roll (M:=KalmanFilter.t float) df
                        0.8%float 0.8%float 100000%float 100000%float
    = Ok log
    /\ (length log <= length df - 1)%nat.
Proof.
  cbv zeta. eexists. split; [ vm_compute; reflexivity | ].
  refine (proj1 (@backtest_log_within_input float Num_float
                   (fun _ s => s) (fun _ s => s)
                   (KalmanFilter.t float) KalmanFilter_model
                   [(1, (101%float, 100%float)); (2, (102.5%float, 101%float))]
                   0.8%float 0.8%float 100000%float 100000%float _ _)).
  vm_compute; reflexivity.
Defined.

Lemma constructors_raise_exactly_at_delta_one_witness :
  (1 / 2 <> 1)%R
  /\ exists k : RollingKalmanFilter.t R,
       RollingKalmanFilter.init 500 (1 / 2)%R (1 / 1000)%R = Ok k
       /\ RollingKalmanFilter.spread_history k = [].
Proof.
  assert (Hd : (1 / 2 <> 1)%R) by lra.
  split; [ exact Hd | ].
  destruct (proj2 (proj1 (proj2 constructors_raise_exactly_at_delta_one)
                         500 (1 / 2)%R (1 / 1000)%R) Hd)
    as (k & Ek & _ & _ & _ & _ & Hh).
  exists k. split; [ exact Ek | exact Hh ].
Defined.

Lemma estimate_kalman_filter_rows_witness :
  let k := KalmanFilter.mk 0.01%float 0.001%float np_zeros2 np_eye2
             (s_mul_mat (0.01 / (1 - 0.01))%float np_eye2) 0.001%float in
  let df := [(1, (101%float, 100%float)); (2, (102.5%float, 101%float))] in
  exists (l : list (float * float)) (row : float * float),
    estimate k df = Ok l
    /\ nth_error l 1 = Some row
    /\ snd row
       = snd (KalmanFilter.beta
                (snd (KalmanFilter.run k (firstn 2 (map snd df))))).
Proof.
  cbv zeta.
  destruct (@estimate_kalman_filter_rows float Num_float
              (KalmanFilter.mk 0.01%float 0.001%float np_zeros2 np_eye2
                 (s_mul_mat (0.01 / (1 - 0.01))%float np_eye2) 0.001%float)
              [(1, (101%float, 100%float)); (2, (102.5%float, 101%float))])
    as (l & El & Ll & Hn).
  destruct l as [ | a [ | b l' ] ]; try discriminate Ll.
  exists (a :: b :: l'), b.
  split; [ exact El | split; [ reflexivity | ] ].
  exact (proj2 (Hn 1%nat b eq_refl)).
Defined.
